(** * Orography factor playground: the sampling and factor computation

    A shallow embedding of the two JavaScript sources of the repository:

    - the current page script (functions [toNumber], [validateLonLat],
      [detectLambertCrs], [fetchElevations], [destinationPoint],
      [computeOrographyFactorComplex], [run] and the submit handler);
    - the legacy script [script.js] ([calculateAllDirectons],
      [calculateTotalElevation]).

    Number model.  A JavaScript Number is embedded as [number]: a finite
    value carried by an exact real, or one of NaN, +Infinity, -Infinity.
    Finite arithmetic is exact (binary64 rounding, overflow and the sign of
    zero are outside the model); the cases NaN and the infinities follow
    IEEE 754 as ECMAScript prescribes.  Where the source has already
    checked [Number.isFinite], the value is carried as a plain real. *)

From Stdlib Require Import Reals Lra Lia ZArith List String Bool.
From Stdlib Require Import DecimalString Permutation.
Import ListNotations.

Local Open Scope R_scope.

(** ** JavaScript numbers *)

Inductive number : Type :=
| NaN
| PInf
| NInf
| Fin (r : R).

Module Number.

(** [Number.isFinite] together with the value it lets through. *)
Definition finite (n : number) : option R :=
  match n with
  | Fin r => Some r
  | _ => None
  end.

(** [a > b]; every comparison with NaN is false. *)
Definition gt (a b : number) : bool :=
  match a, b with
  | NaN, _ | _, NaN => false
  | PInf, PInf => false
  | PInf, _ => true
  | _, PInf => false
  | NInf, _ => false
  | Fin _, NInf => true
  | Fin x, Fin y => if Rlt_dec y x then true else false
  end.

(** [a <= b]. *)
Definition le (a b : number) : bool :=
  match a, b with
  | NaN, _ | _, NaN => false
  | NInf, _ => true
  | _, PInf => true
  | PInf, _ => false
  | Fin _, NInf => false
  | Fin x, Fin y => if Rle_dec x y then true else false
  end.

Definition neg (a : number) : number :=
  match a with
  | NaN => NaN
  | PInf => NInf
  | NInf => PInf
  | Fin x => Fin (- x)
  end.

Definition add (a b : number) : number :=
  match a, b with
  | NaN, _ | _, NaN => NaN
  | PInf, NInf | NInf, PInf => NaN
  | PInf, _ | _, PInf => PInf
  | NInf, _ | _, NInf => NInf
  | Fin x, Fin y => Fin (x + y)
  end.

Definition sub (a b : number) : number := add a (neg b).

(** The product of an infinity with a finite value of the given sign. *)
Definition scale_inf (positive : bool) (x : R) : number :=
  if Rlt_dec 0 x then (if positive then PInf else NInf)
  else if Rlt_dec x 0 then (if positive then NInf else PInf)
  else NaN.

Definition mul (a b : number) : number :=
  match a, b with
  | NaN, _ | _, NaN => NaN
  | Fin x, Fin y => Fin (x * y)
  | Fin x, PInf | PInf, Fin x => scale_inf true x
  | Fin x, NInf | NInf, Fin x => scale_inf false x
  | PInf, PInf | NInf, NInf => PInf
  | PInf, NInf | NInf, PInf => NInf
  end.

(** Division by a finite non-zero constant, the only division the sources
    perform on a value that may be non-finite. *)
Definition divc (a : number) (c : R) : number := mul a (Fin (/ c)).

(** [Math.exp]. *)
Definition exp (a : number) : number :=
  match a with
  | NaN => NaN
  | PInf => PInf
  | NInf => Fin 0
  | Fin x => Fin (Rtrigo_def.exp x)
  end.

(** The least integer not below [x]. *)
Definition Rceil (x : R) : R := IZR (- Int_part (- x)).

(** [Math.ceil]. *)
Definition ceil (a : number) : number :=
  match a with
  | Fin x => Fin (Rceil x)
  | other => other
  end.

End Number.

(** ** [Math] on finite values *)

Definition Math_PI : R := PI.

(** [Math.max] of two finite values. *)
Definition Math_max (a b : R) : R := Rmax a b.

(** [Math.atan2(y, x)], the angle of the point [(x, y)] in (-pi, pi].
    With no signed zero, [atan2(0, x)] for [x < 0] is pi and [atan2(0, 0)]
    is 0. *)
Definition Math_atan2 (y x : R) : R :=
  if Rlt_dec 0 x then atan (y / x)
  else if Rlt_dec x 0 then
    (if Rle_dec 0 y then atan (y / x) + PI else atan (y / x) - PI)
  else if Rlt_dec 0 y then PI / 2
  else if Rlt_dec y 0 then - (PI / 2)
  else 0.

(** Truncation toward zero. *)
Definition trunc (x : R) : Z :=
  if Rle_dec 0 x then Int_part x else (- Int_part (- x))%Z.

(** The remainder operator [a % b]: the result takes the sign of the
    dividend, [a - b * trunc (a / b)]. *)
Definition rem (a b : R) : R := a - b * IZR (trunc (a / b)).

(** [x.toFixed(digits)], as the value of the decimal numeral it prints:
    the nearest multiple of [10^-digits], a tie going away from zero. *)
Definition round_half_up (digits : nat) (x : R) : R :=
  IZR (Int_part (x * 10 ^ digits + / 2)) / 10 ^ digits.

Definition toFixed (digits : nat) (x : R) : R :=
  if Rlt_dec x 0 then - round_half_up digits (- x) else round_half_up digits x.

(** ** Values, errors and results *)

(** An entry of the [elevation] array of the service's JSON body. *)
Inductive value : Type :=
| VNull
| VNum (n : number)
| VOther.

(** [Number.isFinite(e) ? e : null]: only a finite number passes. *)
Definition finite_value (v : value) : option R :=
  match v with
  | VNum n => Number.finite n
  | _ => None
  end.

(** What [validateLonLat] reports. *)
Inductive coordinate_error : Type :=
| NotNumbers       (* Longitude and latitude must be numbers. *)
| LatitudeRange    (* Latitude must be between -90 and 90. *)
| LongitudeRange.  (* Longitude must be between -180 and 180. *)

(** The exceptions of the page script, one constructor per thrown message. *)
Inductive error : Type :=
| ReferenceHeightError                       (* Reference height z must be a non-negative number. *)
| LonLatError (e : coordinate_error)
| LambertNumbersError                        (* Easting and northing must be numbers. *)
| LambertConversionError (e : coordinate_error)
| GeocodeError (message : string)            (* thrown by geocodeAddress *)
| ElevationRequestRejected                   (* fetch or res.json() rejected *)
| ElevationHttpError (status : Z)            (* Elevation request failed (HTTP status). *)
| UnexpectedElevationResponse                (* Unexpected elevation response. *)
| SiteElevationError                         (* Could not determine site elevation. *)
| SampledElevationsError.                    (* Could not determine all sampled elevations. *)

Inductive result (A : Type) : Type :=
| Ok (a : A)
| Err (e : error).

Arguments Ok {A} a.
Arguments Err {A} e.

Definition bind {A B : Type} (m : result A) (k : A -> result B) : result B :=
  match m with
  | Ok a => k a
  | Err e => Err e
  end.

Notation "x <- m ;; k" := (bind m (fun x => k))
  (at level 61, m at next level, right associativity).

Definition is_ok {A : Type} (m : result A) : bool :=
  match m with
  | Ok _ => true
  | Err _ => false
  end.

(** ** Parsing and validation *)

(** [toNumber(v)], applied to the Number that [Number(String(v).trim())]
    yields: a finite value, or [null]. *)
Definition toNumber (v : number) : option R := Number.finite v.

Definition validateLonLat (lon lat : option R) : option coordinate_error :=
  match lon, lat with
  | Some lon, Some lat =>
      if Rlt_dec lat (-90) then Some LatitudeRange
      else if Rlt_dec 90 lat then Some LatitudeRange
      else if Rlt_dec lon (-180) then Some LongitudeRange
      else if Rlt_dec 180 lon then Some LongitudeRange
      else None
  | _, _ => Some NotNumbers
  end.

(** The two Belgian Lambert systems. *)
Inductive crs : Type :=
| EPSG31370    (* Lambert 72, false northing 5400088.438 *)
| EPSG3812.    (* Lambert 2008, false northing 665262 *)

(** The false northing [+y_0] of each system in [defineCrs]. *)
Definition false_northing (c : crs) : R :=
  match c with
  | EPSG31370 => 5400088.438
  | EPSG3812 => 665262
  end.

Definition detectLambertCrs (northing : option R) : crs :=
  match northing with
  | Some n => if Rlt_dec 2000000 n then EPSG31370 else EPSG3812
  | None => EPSG3812
  end.

(** ** Geodesy: destination point *)

Definition degToRad (d : R) : R := (d * Math_PI) / 180.
Definition radToDeg (r : R) : R := (r * 180) / Math_PI.

Record LatLon : Type := { ll_lat : R; ll_lon : R }.

Definition destinationPoint (lat lon distanceM bearingDeg : R) : LatLon :=
  let R := 6371000 in
  let phi1 := degToRad lat in
  let lambda1 := degToRad lon in
  let theta := degToRad bearingDeg in
  let delta := distanceM / R in
  let sinphi2 := sin phi1 * cos delta + cos phi1 * sin delta * cos theta in
  let phi2 := asin sinphi2 in
  let y := sin theta * sin delta * cos phi1 in
  let x := cos delta - sin phi1 * sin phi2 in
  let lambda2 := lambda1 + Math_atan2 y x in
  let lon2 := radToDeg lambda2 in
  let lon2 := rem (lon2 + 540) 360 - 180 in
  {| ll_lat := radToDeg phi2; ll_lon := lon2 |}.


(** ** The sample plan and the elevation request *)

Record SamplePoint : Type := {
  label : string;
  lat : R;
  lon : R;
  distanceM : R;
  bearingDeg : option R   (* [None] is the [null] of the center *)
}.

Definition bearings : list (string * R) :=
  [("N"%string, 0); ("E"%string, 90); ("S"%string, 180); ("W"%string, 270)].

Definition distances : list R := [500; 1000].

(** The [points] array of [computeOrographyFactorComplex]: the center is
    pushed first, then the two nested loops push bearing by bearing,
    distance by distance. *)
Definition samplePoints (lon lat : R) : list SamplePoint :=
  {| label := "CENTER"; lat := lat; lon := lon; distanceM := 0; bearingDeg := None |}
  :: flat_map
       (fun b : string * R =>
          map (fun d : R =>
                 let p := destinationPoint lat lon d (snd b) in
                 {| label := fst b; lat := ll_lat p; lon := ll_lon p;
                    distanceM := d; bearingDeg := Some (snd b) |})
              distances)
       bearings.

(** What the elevation service answers to one request. *)
Inductive reply : Type :=
| Rejected
| Response (ok : bool) (status : Z) (elevation : option (list value)).
(* [elevation] is [None] when the body is empty or its [elevation] member
   is not an array. *)

Definition fetchElevations (gateway : list SamplePoint -> reply)
    (points : list SamplePoint) : result (list (option R)) :=
  match gateway points with
  | Rejected => Err ElevationRequestRejected
  | Response ok status elevation =>
      if negb ok then Err (ElevationHttpError status)
      else match elevation with
           | None => Err UnexpectedElevationResponse
           | Some es =>
               if negb (Nat.eqb (List.length es) (List.length points))
               then Err UnexpectedElevationResponse
               else Ok (map finite_value es)
           end
  end.

(** ** Orography factor computation *)

Record OrographyResult : Type := {
  c0 : R;
  Ac : R;
  Am : R;
  points : list SamplePoint;
  elevations : list (option R)
}.

(** [sampleElevs.some((e) => !Number.isFinite(e))] is false exactly when
    every entry is a finite number; the entries are then summed as such. *)
Fixpoint all_finite (es : list (option R)) : option (list R) :=
  match es with
  | [] => Some []
  | Some e :: rest =>
      match all_finite rest with
      | Some l => Some (e :: l)
      | None => None
      end
  | None :: _ => None
  end.

(** [sampleElevs.reduce((acc, e) => acc + e, 0)]. *)
Definition sumSamples (sampleElevs : list R) : R :=
  fold_left (fun acc e => acc + e) sampleElevs 0.

Definition meanElevation (Ac : R) (sampleElevs : list R) : R :=
  (2 * Ac + sumSamples sampleElevs) / 10.

(** [Math.max(0, Number.isFinite(zRefMeters) ? zRefMeters : 10)]. *)
Definition referenceHeight (zRefMeters : number) : R :=
  Math_max 0 (match Number.finite zRefMeters with Some z => z | None => 10 end).

Definition attenuation (z : R) : R :=
  exp (-0.014 * Math_max 0 (z - 10)).

(** The factor before the floor. *)
Definition rawFactor (Ac Am z : R) : R :=
  1 + 0.004 * (Ac - Am) * attenuation z.

(** [if (c0 < 1) c0 = 1]. *)
Definition floorFactor (c0 : R) : R :=
  if Rlt_dec c0 1 then 1 else c0.

Definition computeOrographyFactorComplex
    (gateway : list SamplePoint -> reply)
    (lon lat : R) (zRefMeters : number) : result OrographyResult :=
  let points := samplePoints lon lat in
  elevations <- fetchElevations gateway points ;;
  match nth_error elevations 0 with
  | Some (Some Ac) =>
      let sampleElevs := tl elevations in
      match all_finite sampleElevs with
      | None => Err SampledElevationsError
      | Some sampleElevs =>
          let Am := meanElevation Ac sampleElevs in
          let z := referenceHeight zRefMeters in
          let c0 := rawFactor Ac Am z in
          let c0 := floorFactor c0 in
          Ok {| c0 := c0; Ac := Ac; Am := Am;
                points := points; elevations := elevations |}
      end
  | _ => Err SiteElevationError
  end.

(** ** The page: form fields, outputs and the main runner *)

Inductive mode : Type :=
| ModeLonLat     (* lonlat *)
| ModeAddress    (* address *)
| ModeLambert.   (* lambert *)

(** The form.  A numeric field holds the Number its text converts to. *)
Record Form : Type := {
  inputType : mode;
  lonEl : number;
  latEl : number;
  addressEl : string;
  countryCodeEl : string;
  eastingEl : number;
  northingEl : number;
  lambertCrsEl : option crs;   (* [None] is the choice auto *)
  zRefEl : number
}.

Inductive place_label : Type :=
| NoLabel
| GeocodedLabel (text : string)
| FromCrs (c : crs).

Record GeocodeHit : Type := {
  hit_lat : R;
  hit_lon : R;
  hit_label : string
}.

Inductive status_line : Type :=
| StatusEmpty
| StatusFetching   (* Fetching elevations & calculating... *)
| StatusDone       (* Done. *)
| StatusError (e : error).

(** The two coordinate lines, numbers as printed by [fmt] and [fmtM]. *)
Record CoordinateLines : Type := {
  shown_lon : R;
  shown_lat : R;
  shown_label : place_label;
  shown_crs : crs;
  shown_X : R;
  shown_Y : R
}.

Record SampleRow : Type := {
  row_label : string;
  row_distance : R;
  row_bearing : option R;
  row_lat : R;
  row_lon : R;
  row_elevation : option R
}.

(** The output elements; [None] is the dash a cleared element shows. *)
Record Page : Type := {
  statusEl : status_line;
  coordsLines : option CoordinateLines;
  orographyFactorEl : option R;
  AcEl : option R;
  AmEl : option R;
  warningEl : bool;              (* [true] when the warning is visible *)
  samplesTbody : list SampleRow
}.

Definition setStatus (s : status_line) (p : Page) : Page :=
  {| statusEl := s; coordsLines := coordsLines p;
     orographyFactorEl := orographyFactorEl p; AcEl := AcEl p; AmEl := AmEl p;
     warningEl := warningEl p; samplesTbody := samplesTbody p |}.

Definition setWarning (shown : bool) (p : Page) : Page :=
  {| statusEl := statusEl p; coordsLines := coordsLines p;
     orographyFactorEl := orographyFactorEl p; AcEl := AcEl p; AmEl := AmEl p;
     warningEl := shown; samplesTbody := samplesTbody p |}.

Definition setSamples (rows : list SampleRow) (p : Page) : Page :=
  {| statusEl := statusEl p; coordsLines := coordsLines p;
     orographyFactorEl := orographyFactorEl p; AcEl := AcEl p; AmEl := AmEl p;
     warningEl := warningEl p; samplesTbody := rows |}.

Definition setCoords (c : CoordinateLines) (p : Page) : Page :=
  {| statusEl := statusEl p; coordsLines := Some c;
     orographyFactorEl := orographyFactorEl p; AcEl := AcEl p; AmEl := AmEl p;
     warningEl := warningEl p; samplesTbody := samplesTbody p |}.

Definition setResults (factor ac am : R) (p : Page) : Page :=
  {| statusEl := statusEl p; coordsLines := coordsLines p;
     orographyFactorEl := Some factor; AcEl := Some ac; AmEl := Some am;
     warningEl := warningEl p; samplesTbody := samplesTbody p |}.

Definition clearOutputs (p : Page) : Page :=
  {| statusEl := StatusEmpty; coordsLines := None;
     orographyFactorEl := None; AcEl := None; AmEl := None;
     warningEl := false; samplesTbody := [] |}.

(** [renderSamples]: one row per point, with the elevation found at the
    point's index ([None], a dash, when that entry is not a finite number). *)
Definition renderSamples (points : list SamplePoint)
    (elevations : list (option R)) : list SampleRow :=
  map (fun ip : nat * SamplePoint =>
         let (idx, p) := ip in
         {| row_label := label p;
            row_distance := distanceM p;
            row_bearing := bearingDeg p;
            row_lat := toFixed 6 (lat p);
            row_lon := toFixed 6 (lon p);
            row_elevation :=
              match nth_error elevations idx with
              | Some (Some e) => Some (toFixed 1 e)
              | _ => None
              end |})
      (combine (seq 0 (List.length points)) points).

Section Runner.

(** The collaborators outside the script: the elevation service, the
    geocoding service, and the Proj4js transforms between WGS84 and the two
    Lambert systems. *)
Variable gateway : list SamplePoint -> reply.
Variable geocodeAddress : string -> string -> result GeocodeHit.
Variable proj4_to_lambert : crs -> R * R -> R * R.
Variable proj4_to_wgs84 : crs -> R * R -> R * R.

Definition wgs84ToLambert (lon lat : R) (targetCrs : crs) : R * R * crs :=
  let (x, y) := proj4_to_lambert targetCrs (lon, lat) in
  (x, y, targetCrs).

Definition lambertToWgs84 (x y : R) (sourceCrs : crs) : R * R :=
  proj4_to_wgs84 sourceCrs (x, y).

(** The three input modes of [run]: the resolved longitude, latitude and
    label, or the exception the mode throws. *)
Definition resolveInput (f : Form) : result (R * R * place_label) :=
  match inputType f with
  | ModeLonLat =>
      let lonN := toNumber (lonEl f) in
      let latN := toNumber (latEl f) in
      match validateLonLat lonN latN, lonN, latN with
      | None, Some lon, Some lat => Ok (lon, lat, NoLabel)
      | Some err, _, _ => Err (LonLatError err)
      | None, _, _ => Err (LonLatError NotNumbers)
      end
  | ModeAddress =>
      g <- geocodeAddress (addressEl f) (countryCodeEl f) ;;
      Ok (hit_lon g, hit_lat g, GeocodedLabel (hit_label g))
  | ModeLambert =>
      match toNumber (eastingEl f), toNumber (northingEl f) with
      | Some x, Some y =>
          let crs := match lambertCrsEl f with
                     | None => detectLambertCrs (Some y)
                     | Some c => c
                     end in
          let (wlon, wlat) := lambertToWgs84 x y crs in
          match validateLonLat (Some wlon) (Some wlat) with
          | Some err => Err (LambertConversionError err)
          | None => Ok (wlon, wlat, FromCrs crs)
          end
      | _, _ => Err LambertNumbersError
      end
  end.

Definition lambertDisplayCrs (f : Form) : crs :=
  match inputType f, lambertCrsEl f with
  | ModeLambert, Some c => c
  | _, _ => EPSG31370
  end.

(** [run]: the page after the run, and whether the run threw. *)
Definition run (f : Form) (page : Page) : Page * result unit :=
  let page := setSamples [] (setWarning false (setStatus StatusEmpty page)) in
  match toNumber (zRefEl f) with
  | None => (page, Err ReferenceHeightError)
  | Some zRef =>
      if Rlt_dec zRef 0 then (page, Err ReferenceHeightError)
      else
        match resolveInput f with
        | Err e => (page, Err e)
        | Ok (lon, lat, label) =>
            let '(lamX, lamY, lamCrs) := wgs84ToLambert lon lat (lambertDisplayCrs f) in
            let page :=
              setCoords {| shown_lon := toFixed 6 lon; shown_lat := toFixed 6 lat;
                           shown_label := label; shown_crs := lamCrs;
                           shown_X := toFixed 3 lamX; shown_Y := toFixed 3 lamY |}
                        page in
            let page := setStatus StatusFetching page in
            match computeOrographyFactorComplex gateway lon lat (Fin zRef) with
            | Err e => (page, Err e)
            | Ok r =>
                let page :=
                  setResults (toFixed 3 (c0 r)) (toFixed 1 (Ac r)) (toFixed 1 (Am r))
                             page in
                let page := setSamples (renderSamples (points r) (elevations r)) page in
                let page := setWarning (if Rlt_dec 1.15 (c0 r) then true else false) page in
                (setStatus StatusDone page, Ok tt)
            end
        end
  end.

(** The submit handler: clear the outputs, run, and show a caught
    exception in the status line. *)
Definition submit (f : Form) (page : Page) : Page :=
  let (page, outcome) := run f (clearOutputs page) in
  match outcome with
  | Ok _ => page
  | Err e => setStatus (StatusError e) page
  end.

End Runner.

(** ** The legacy script *)

Module Legacy.

(** One elevation request of the legacy page: the element that receives the
    answer and the coordinates asked for. *)
Record Request : Type := {
  target : string;
  newLatitude : R;
  newLongitude : R
}.

(** [calculateElevationForDirection]: the two trailing parameters default
    to the origin's coordinates. *)
Definition calculateElevationForDirection (latitude longitude : R)
    (direction : string) (newLatitude newLongitude : option R) : Request :=
  {| target := "elevation_" ++ direction;
     newLatitude := match newLatitude with Some l => l | None => latitude end;
     newLongitude := match newLongitude with Some l => l | None => longitude end |}.

(** [calculateAllDirectons]: the eight requests in the order they are
    issued, on a flat-earth scale of 111 km per degree. *)
Definition calculateAllDirectons (latitude longitude : R) : list Request :=
  let ask := calculateElevationForDirection latitude longitude in
  let km_per_degree_east := 111 * cos (latitude * Math_PI / 180) in
  [ ask "north_05km" (Some (latitude + 0.5 / 111)) None;
    ask "south_05km" (Some (latitude - 0.5 / 111)) None;
    ask "east_05km" (Some latitude) (Some (longitude + 0.5 / km_per_degree_east));
    ask "west_05km" (Some latitude) (Some (longitude - 0.5 / km_per_degree_east));
    ask "north_1km" (Some (latitude + 1 / 111)) None;
    ask "south_1km" (Some (latitude - 1 / 111)) None;
    ask "east_1km" (Some latitude) (Some (longitude + 1 / km_per_degree_east));
    ask "west_1km" (Some latitude) (Some (longitude - 1 / km_per_degree_east)) ]%string.

(** [calculateElevation]: the request for the site itself. *)
Definition calculateElevation (latitude longitude : R) : Request :=
  {| target := "elevation"; newLatitude := latitude; newLongitude := longitude |}.

(** The requests [applyResolvedCoordinates] sets off, in order. *)
Definition requests (latitude longitude : R) : list Request :=
  calculateElevation latitude longitude :: calculateAllDirectons latitude longitude.

(** What [calculateTotalElevation] reads: each field holds the Number that
    [parseFloat] makes of the element's text (of the input's value for
    [height]). *)
Record Fields : Type := {
  elevation_north_05km : number;
  elevation_north_1km : number;
  elevation_south_05km : number;
  elevation_south_1km : number;
  elevation_east_05km : number;
  elevation_east_1km : number;
  elevation_west_05km : number;
  elevation_west_1km : number;
  elevation : number;
  height : number
}.

Definition comment_flat : string :=
  "Site is considered flat. Standard pieces may be used".
Definition comment_steep : string :=
  "Site is NOT flat. A detailed analysis is required. Standard pieces may not be used without an individual stability study.".
Definition comment_not_flat : string :=
  "Site is NOT flat. Standard pieces may not be used without an individual stability study.".

(** What [calculateTotalElevation] writes: the comment, and the factor as
    the value of the numeral [toFixed(2)] prints. *)
Record Written : Type := {
  orography_factor_comment : string;
  orography_factor : number
}.

Definition toFixed2 (n : number) : number :=
  match n with
  | Fin x => Fin (toFixed 2 x)
  | other => other
  end.

(** The factor before rounding, from [DeltaAc] and the tower height. *)
Definition factor (DeltaAc : R) (towerHeight : number) : number :=
  if Number.gt towerHeight (Fin 10)
  then Number.add (Fin 1)
         (Number.mul (Fin (0.004 * DeltaAc))
            (Number.exp
               (Number.mul (Fin (-0.014)) (Number.sub towerHeight (Fin 10)))))
  else Fin (1 + 0.004 * DeltaAc * exp (-0.014 * (10 - 10))).

(** [Math.ceil(OrographyFactor * 100) / 100]. *)
Definition roundUp (OrographyFactor : number) : number :=
  Number.divc (Number.ceil (Number.mul OrographyFactor (Fin 100))) 100.

Definition comment (OrographyFactor : number) : string :=
  if Number.le OrographyFactor (Fin 1.0) then comment_flat
  else if Number.gt OrographyFactor (Fin 1.15) then comment_steep
  else if Number.gt OrographyFactor (Fin 1.0)
          && Number.le OrographyFactor (Fin 1.15) then comment_not_flat
  else "".

(** [Am] as the legacy script computes it. *)
Definition meanElevation (elevation sum1km sum05km : R) : R :=
  1 / 10 * (2 * elevation + sum1km + sum05km).

(** [calculateTotalElevation]: [None] when it returns before writing. *)
Definition calculateTotalElevation (d : Fields) : option Written :=
  match Number.finite (elevation d),
        Number.finite (elevation_north_05km d), Number.finite (elevation_north_1km d),
        Number.finite (elevation_south_05km d), Number.finite (elevation_south_1km d),
        Number.finite (elevation_east_05km d), Number.finite (elevation_east_1km d),
        Number.finite (elevation_west_05km d), Number.finite (elevation_west_1km d)
  with
  | Some elevation,
    Some elevationNorth05km, Some elevationNorth1km,
    Some elevationSouth05km, Some elevationSouth1km,
    Some elevationEast05km, Some elevationEast1km,
    Some elevationWest05km, Some elevationWest1km =>
      let sum1km :=
        elevationNorth1km + elevationSouth1km + elevationEast1km + elevationWest1km in
      let sum05km :=
        elevationNorth05km + elevationSouth05km + elevationEast05km + elevationWest05km in
      let towerHeight := height d in
      let Am := meanElevation elevation sum1km sum05km in
      let DeltaAc := elevation - Am in
      let OrographyFactor := roundUp (factor DeltaAc towerHeight) in
      Some {| orography_factor_comment := comment OrographyFactor;
              orography_factor := toFixed2 OrographyFactor |}
  | _, _, _, _, _, _, _, _, _ => None
  end.

End Legacy.

(** ** The specification's formulas

    The definitions of this module follow the words of the specification
    (Orography Calculator, steps 3 to 7, and the design note on the order
    of floor, rounding and classification); the code is compared with them
    below. *)

Module Spec.

Definition sum (ring : list R) : R := fold_right Rplus 0 ring.

(** Am = (2*Ac + sum(ring elevations)) / 10. *)
Definition Am (Ac : R) (ring : list R) : R := (2 * Ac + sum ring) / 10.

(** z = max(0, reference_height_m); attenuation = exp(-0.014 * max(0, z - 10)). *)
Definition attenuation (h : R) : R :=
  let z := Rmax 0 h in exp (-0.014 * Rmax 0 (z - 10)).

(** raw_factor = 1 + 0.004 * (Ac - Am) * attenuation. *)
Definition raw_factor (Ac : R) (ring : list R) (h : R) : R :=
  1 + 0.004 * (Ac - Am Ac ring) * attenuation h.

(** factor = max(1.0, raw_factor). *)
Definition factor (Ac : R) (ring : list R) (h : R) : R :=
  Rmax 1 (raw_factor Ac ring h).

Inductive advisory : Type :=
| FLAT
| TRANSITIONAL
| STEEP.

(** factor <= 1.0 is FLAT; 1.0 < factor <= 1.15 is TRANSITIONAL;
    factor > 1.15 is STEEP. *)
Definition classify (factor : R) : advisory :=
  if Rle_dec factor 1 then FLAT
  else if Rle_dec factor 1.15 then TRANSITIONAL
  else STEEP.

(** Floor, then round, then classify on the rounded value: the factor shown
    and the advisory, for a given rounding. *)
Definition floor_round_classify (round : R -> R) (raw : R) : R * advisory :=
  let floored := Rmax 1 raw in
  let rounded := round floored in
  (rounded, classify rounded).

End Spec.

(** ** Inputs used in the statements *)

(** The eight ring elevations in the order of the sample plan. *)
Definition ring8 (n05 n1 e05 e1 s05 s1 w05 w1 : R) : list R :=
  [n05; n1; e05; e1; s05; s1; w05; w1].

(** A successful answer of the elevation service carrying finite numbers. *)
Definition answer (status : Z) (es : list R) : reply :=
  Response true status (Some (map (fun e => VNum (Fin e)) es)).

(** A form in longitude/latitude mode. *)
Definition lonlatForm (lon lat zRef : number) : Form :=
  {| inputType := ModeLonLat; lonEl := lon; latEl := lat;
     addressEl := ""; countryCodeEl := "BE";
     eastingEl := NaN; northingEl := NaN; lambertCrsEl := None;
     zRefEl := zRef |}.

(** The legacy page once the nine elevations have been written. *)
Definition legacyFields (Ac n05 n1 e05 e1 s05 s1 w05 w1 : R) (height : number)
  : Legacy.Fields :=
  {| Legacy.elevation_north_05km := Fin n05;
     Legacy.elevation_north_1km := Fin n1;
     Legacy.elevation_south_05km := Fin s05;
     Legacy.elevation_south_1km := Fin s1;
     Legacy.elevation_east_05km := Fin e05;
     Legacy.elevation_east_1km := Fin e1;
     Legacy.elevation_west_05km := Fin w05;
     Legacy.elevation_west_1km := Fin w1;
     Legacy.elevation := Fin Ac;
     Legacy.height := height |}.

(** A page with every output cleared, and stand-ins for the collaborators a
    run in longitude/latitude mode never calls. *)
Definition blankPage : Page :=
  {| statusEl := StatusEmpty; coordsLines := None; orographyFactorEl := None;
     AcEl := None; AmEl := None; warningEl := false; samplesTbody := [] |}.

Definition noGeocoder (address countryCode : string) : result GeocodeHit :=
  Err (GeocodeError "No results found for that address.").

Definition noProjection (c : crs) (xy : R * R) : R * R := xy.

(** The service answering 200 m at the site and 100 m all around it. *)
Definition hillGateway (pts : list SamplePoint) : reply :=
  answer 200 (200 :: ring8 100 100 100 100 100 100 100 100).

(** The service answering 47 m at the site and sea level all around it. *)
Definition knollGateway (pts : list SamplePoint) : reply :=
  answer 200 (47 :: ring8 0 0 0 0 0 0 0 0).

(** The service answering with no elevation for the first ring point. *)
Definition gapGateway (pts : list SamplePoint) : reply :=
  Response true 200
    (Some (VNum (Fin 200) :: VNull :: map (fun e => VNum (Fin e)) [100; 100; 100; 100; 100; 100; 100])).

(** The origin used in the examples: the legacy map's initial position. *)
Definition brusselsLon : R := 4.3517.
Definition brusselsLat : R := 50.8503.

(** The advisory a legacy comment stands for. *)
Definition legacyComment (a : Spec.advisory) : string :=
  match a with
  | Spec.FLAT => Legacy.comment_flat
  | Spec.TRANSITIONAL => Legacy.comment_not_flat
  | Spec.STEEP => Legacy.comment_steep
  end.

(** ** Geocoding *)

(** One entry of the geocoding service's [results]; a textual member that
    is absent is [None]. *)
Record GeocodeResult : Type := {
  res_latitude : R;
  res_longitude : R;
  res_name : option string;
  res_admin1 : option string;
  res_country : option string
}.

(** What the geocoding service answers: the rejection of [fetch] or
    [res.json()] with its message, or a response whose [results] member is
    [None] when the body or the member is missing. *)
Inductive geocode_reply : Type :=
| GeocodeRejected (message : string)
| GeocodeResponse (ok : bool) (status : Z) (results : option (list GeocodeResult)).

(** [x || ""]. *)
Definition or_empty (s : option string) : string :=
  match s with
  | Some s => s
  | None => ""
  end.

Definition nonempty (s : string) : bool := negb (String.eqb s "").

(** [[r.name, r.admin1 || "", r.country || ""].filter(Boolean).join(", ")]. *)
Definition geocodeLabel (r : GeocodeResult) : string :=
  String.concat ", "
    (filter nonempty [or_empty (res_name r); or_empty (res_admin1 r);
                      or_empty (res_country r)]).

Section Geocoding.

(** [String.prototype.trim] and [toUpperCase], and the service: it is asked
    for a name, with a country code when one is set. *)
Variable trim : string -> string.
Variable toUpperCase : string -> string.
Variable geocoder : string -> option string -> geocode_reply.

Definition geocodeAddress (address countryCode : string) : result GeocodeHit :=
  let name := trim address in
  if negb (nonempty name) then Err (GeocodeError "Please enter an address.")
  else
    let cc := toUpperCase (trim countryCode) in
    match geocoder name (if nonempty cc then Some cc else None) with
    | GeocodeRejected message => Err (GeocodeError message)
    | GeocodeResponse ok status results =>
        if negb ok
        then Err (GeocodeError
                    ("Geocoding failed (HTTP "
                       ++ NilZero.string_of_int (Z.to_int status) ++ ")."))
        else match results with
             | Some (r :: _) =>
                 Ok {| hit_lat := res_latitude r;
                       hit_lon := res_longitude r;
                       hit_label := geocodeLabel r |}
             | _ => Err (GeocodeError "No results found for that address.")
             end
    end.

End Geocoding.

(** ** The legacy input modes *)

Module LegacyInput.

(** What a legacy input handler leads to: an alert and nothing else, or the
    elevation requests that [applyResolvedCoordinates] sets off. *)
Inductive outcome : Type :=
| Alert (message : string)
| Requests (rs : list Legacy.Request).


(** [calculateFromLambert(crs)], with Proj4js loaded: the converted
    coordinates are passed on as they come. *)
Definition calculateFromLambert (proj4_to_wgs84 : crs -> R * R -> R * R)
    (c : crs) (x y : number) : outcome :=
  match Number.finite x, Number.finite y with
  | Some x, Some y =>
      let (longitude, latitude) := proj4_to_wgs84 c (x, y) in
      Requests (Legacy.requests latitude longitude)
  | _, _ => Alert "Please enter valid Lambert X and Y."
  end.

End LegacyInput.

(** ** Validation of any Numbers *)

(** [validateLonLat] on values that need not be finite, as the conversion of
    Lambert coordinates may return them: every comparison with NaN is false,
    so that NaN falls through the four range tests. *)
Definition validateLonLatNumbers (lon lat : option number) : option coordinate_error :=
  match lon, lat with
  | Some lon, Some lat =>
      if Number.gt (Fin (-90)) lat then Some LatitudeRange
      else if Number.gt lat (Fin 90) then Some LatitudeRange
      else if Number.gt (Fin (-180)) lon then Some LongitudeRange
      else if Number.gt lon (Fin 180) then Some LongitudeRange
      else None
  | _, _ => Some NotNumbers
  end.

(** ** Further inputs used in the statements *)

(** An answer of the elevation service with one finite number per entry. *)
Definition finiteAnswer (es : list value) : Prop :=
  Forall (fun v => exists e : R, finite_value v = Some e) es.

(** A form in Lambert mode. *)
Definition lambertForm (easting northing : number) (choice : option crs)
    (zRef : number) : Form :=
  {| inputType := ModeLambert; lonEl := NaN; latEl := NaN;
     addressEl := ""; countryCodeEl := "BE";
     eastingEl := easting; northingEl := northing; lambertCrsEl := choice;
     zRefEl := zRef |}.

(** A form in address mode. *)
Definition addressForm (address countryCode : string) (zRef : number) : Form :=
  {| inputType := ModeAddress; lonEl := NaN; latEl := NaN;
     addressEl := address; countryCodeEl := countryCode;
     eastingEl := NaN; northingEl := NaN; lambertCrsEl := None;
     zRefEl := zRef |}.

(** A service that answers nothing usable, a geocoder that finds nothing,
    and a projection onto the centre of Brussels. *)
Definition deadGateway (pts : list SamplePoint) : reply := Rejected.

Definition emptyGeocoder (name : string) (countryCode : option string)
  : geocode_reply :=
  GeocodeResponse true 200 (Some []).

Definition brusselsProjection (c : crs) (xy : R * R) : R * R :=
  (brusselsLon, brusselsLat).

(** The service answering 100 m at the site and 200 m all around it. *)
Definition valleyGateway (pts : list SamplePoint) : reply :=
  answer 200 (100 :: ring8 200 200 200 200 200 200 200 200).

(** A page showing the results of an earlier run. *)
Definition stalePage : Page :=
  {| statusEl := StatusDone; coordsLines := None;
     orographyFactorEl := Some 1.32; AcEl := Some 200; AmEl := Some 120;
     warningEl := true; samplesTbody := [] |}.

(** * Properties *)

Arguments samplePoints : simpl never.
Arguments destinationPoint : simpl never.
Arguments toFixed : simpl never.

(** ** Integer parts, rounding and remainders *)

Lemma Int_part_between (r : R) (z : Z) :
  IZR z <= r < IZR z + 1 -> Int_part r = z.
Proof.
  intros [Hlo Hhi]. symmetry. apply Int_part_spec. lra.
Qed.

Lemma Int_part_bounds (r : R) : IZR (Int_part r) <= r < IZR (Int_part r) + 1.
Proof.
  destruct (base_Int_part r) as [H1 H2]. lra.
Qed.

Lemma Rceil_between (x : R) (z : Z) :
  IZR z - 1 < x <= IZR z -> Number.Rceil x = IZR z.
Proof.
  intros [Hlo Hhi]. unfold Number.Rceil.
  rewrite (Int_part_between (- x) (- z)).
  - now rewrite Z.opp_involutive.
  - rewrite opp_IZR. lra.
Qed.


Lemma trunc_nonneg (x : R) : 0 <= x -> trunc x = Int_part x.
Proof.
  intros Hx. unfold trunc. destruct (Rle_dec 0 x); [reflexivity | contradiction].
Qed.

(** For a non-negative dividend and a positive divisor the remainder falls
    in [0, b). *)
Lemma rem_range (a b : R) : 0 <= a -> 0 < b -> 0 <= rem a b < b.
Proof.
  intros Ha Hb. unfold rem.
  assert (Hq : 0 <= a / b) by (apply Rmult_le_pos; [lra | left; now apply Rinv_0_lt_compat]).
  rewrite (trunc_nonneg _ Hq).
  destruct (Int_part_bounds (a / b)) as [H1 H2].
  assert (Ha' : a = b * (a / b)) by (field; lra).
  split.
  - apply (Rmult_le_compat_l b) in H1; lra.
  - apply (Rmult_lt_compat_l b) in H2; lra.
Qed.


Lemma round_half_up_between (digits : nat) (x : R) (z : Z) :
  IZR z <= x * 10 ^ digits + / 2 < IZR z + 1 ->
  round_half_up digits x = IZR z / 10 ^ digits.
Proof.
  intros H. unfold round_half_up. now rewrite (Int_part_between _ z H).
Qed.

(** ** The floor of the factor *)

Lemma floorFactor_max (c : R) : floorFactor c = Rmax 1 c.
Proof.
  unfold floorFactor, Rmax.
  destruct (Rlt_dec c 1), (Rle_dec 1 c); lra.
Qed.

Lemma floorFactor_ge_1 (c : R) : 1 <= floorFactor c.
Proof.
  rewrite floorFactor_max. apply Rmax_l.
Qed.

Lemma attenuation_at_most_10 (z : R) : z <= 10 -> attenuation z = 1.
Proof.
  intros Hz. unfold attenuation, Math_max.
  rewrite Rmax_left by lra. rewrite Rmult_0_r. apply exp_0.
Qed.

Lemma attenuation_range (z : R) : 0 < attenuation z <= 1.
Proof.
  split; [apply exp_pos |].
  unfold attenuation. rewrite <- exp_0.
  destruct (Rle_lt_or_eq_dec _ _ (Rmax_l 0 (z - 10))) as [Hlt | Heq].
  - left. apply exp_increasing. unfold Math_max. lra.
  - right. unfold Math_max. rewrite <- Heq. f_equal. lra.
Qed.

(** ** When the computation succeeds, and with what *)

Lemma all_finite_map_Some (l : list R) : all_finite (map Some l) = Some l.
Proof.
  induction l as [| e l IH]; simpl; [reflexivity | now rewrite IH].
Qed.

Lemma all_finite_inv (es : list (option R)) (l : list R) :
  all_finite es = Some l -> es = map Some l.
Proof.
  revert l. induction es as [| [e |] es IH]; intros l H; simpl in H.
  - now inversion H.
  - destruct (all_finite es) as [l' |]; [| discriminate].
    inversion H; subst. simpl. now rewrite (IH l').
  - discriminate.
Qed.

Lemma samplePoints_length (lon lat : R) : List.length (samplePoints lon lat) = 9%nat.
Proof. reflexivity. Qed.

(** A well-formed answer of nine finite elevations always yields a result,
    built from the formulas of the source. *)
Lemma compute_ok (gateway : list SamplePoint -> reply) (lon lat : R)
    (zRefMeters : number) (status : Z) (es : list value) (Ac : R) (ring : list R) :
  gateway (samplePoints lon lat) = Response true status (Some es) ->
  map finite_value es = Some Ac :: map Some ring ->
  List.length ring = 8%nat ->
  computeOrographyFactorComplex gateway lon lat zRefMeters =
  Ok {| c0 := floorFactor (rawFactor Ac (meanElevation Ac ring) (referenceHeight zRefMeters));
        Ac := Ac;
        Am := meanElevation Ac ring;
        points := samplePoints lon lat;
        elevations := Some Ac :: map Some ring |}.
Proof.
  intros Hg Hes Hlen.
  unfold computeOrographyFactorComplex, fetchElevations. cbv zeta. rewrite Hg.
  cbn [negb].
  assert (Hl : List.length es = 9%nat).
  { rewrite <- (length_map finite_value), Hes. simpl. rewrite length_map. lia. }
  rewrite Hl, samplePoints_length. simpl. rewrite Hes. simpl.
  now rewrite all_finite_map_Some.
Qed.

(** ** The code's formulas against the specification's *)

Lemma sumSamples_fold_right (l : list R) : sumSamples l = Spec.sum l.
Proof.
  unfold sumSamples, Spec.sum.
  assert (H : forall acc, fold_left (fun a e => a + e) l acc = acc + fold_right Rplus 0 l).
  { induction l as [| e l IH]; intros acc; simpl.
    - ring.
    - rewrite IH. ring. }
  rewrite H. ring.
Qed.

Lemma meanElevation_spec (Ac : R) (ring : list R) :
  meanElevation Ac ring = Spec.Am Ac ring.
Proof.
  unfold meanElevation, Spec.Am. now rewrite sumSamples_fold_right.
Qed.

Lemma rawFactor_spec (Ac : R) (ring : list R) (h : R) :
  rawFactor Ac (meanElevation Ac ring) (referenceHeight (Fin h))
  = Spec.raw_factor Ac ring h.
Proof.
  unfold rawFactor, Spec.raw_factor. rewrite meanElevation_spec. reflexivity.
Qed.

Lemma spec_attenuation_low (h : R) : h <= 10 -> Spec.attenuation h = 1.
Proof.
  intros Hh. unfold Spec.attenuation.
  assert (Hz : Rmax 0 h <= 10) by (apply Rmax_lub; lra).
  rewrite (Rmax_left 0 (Rmax 0 h - 10)) by lra.
  rewrite Rmult_0_r. apply exp_0.
Qed.

Lemma spec_attenuation_high (h : R) :
  10 < h -> Spec.attenuation h = exp (-0.014 * (h - 10)).
Proof.
  intros Hh. unfold Spec.attenuation.
  rewrite (Rmax_right 0 h) by lra. now rewrite Rmax_right by lra.
Qed.

(** The legacy branch on the tower height computes the same attenuation. *)
Lemma legacy_factor_spec (DeltaAc h : R) :
  Legacy.factor DeltaAc (Fin h) = Fin (1 + 0.004 * DeltaAc * Spec.attenuation h).
Proof.
  unfold Legacy.factor, Number.gt.
  destruct (Rlt_dec 10 h) as [Hh | Hh].
  - rewrite spec_attenuation_high by assumption. simpl. do 3 f_equal.
  - rewrite spec_attenuation_low by lra.
    replace (10 - 10) with 0 by ring. now rewrite Rmult_0_r, exp_0.
Qed.

Lemma legacy_meanElevation_spec (Ac n05 n1 e05 e1 s05 s1 w05 w1 : R) :
  Legacy.meanElevation Ac (n1 + s1 + e1 + w1) (n05 + s05 + e05 + w05)
  = Spec.Am Ac (ring8 n05 n1 e05 e1 s05 s1 w05 w1).
Proof.
  unfold Legacy.meanElevation, Spec.Am, Spec.sum, ring8. simpl. field.
Qed.

Lemma roundUp_Fin (x : R) :
  Legacy.roundUp (Fin x) = Fin (Number.Rceil (x * 100) / 100).
Proof. reflexivity. Qed.

Lemma pow10_pos (d : nat) : 0 < 10 ^ d.
Proof. apply pow_lt. lra. Qed.

(** A numeral with [d] decimals prints as itself. *)
Lemma toFixed_decimal (d : nat) (k : Z) : toFixed d (IZR k / 10 ^ d) = IZR k / 10 ^ d.
Proof.
  pose proof (pow10_pos d) as Hp.
  assert (Hinv : forall z : Z, IZR z / 10 ^ d * 10 ^ d = IZR z) by (intros; field; lra).
  unfold toFixed. destruct (Rlt_dec (IZR k / 10 ^ d) 0) as [Hneg | Hpos].
  - rewrite (round_half_up_between d _ (- k)).
    + rewrite opp_IZR. field. lra.
    + replace (- (IZR k / 10 ^ d) * 10 ^ d) with (- (IZR k / 10 ^ d * 10 ^ d)) by ring.
      rewrite Hinv, opp_IZR. lra.
  - apply round_half_up_between. rewrite Hinv. lra.
Qed.

Lemma toFixed_between (d : nat) (x : R) (z : Z) :
  0 <= x -> IZR z <= x * 10 ^ d + / 2 < IZR z + 1 -> toFixed d x = IZR z / 10 ^ d.
Proof.
  intros Hx H. unfold toFixed.
  destruct (Rlt_dec x 0); [lra |]. now apply round_half_up_between.
Qed.

Lemma toFixed2_roundUp (x : R) :
  Legacy.toFixed2 (Legacy.roundUp (Fin x)) = Legacy.roundUp (Fin x).
Proof.
  rewrite roundUp_Fin. unfold Legacy.toFixed2, Number.Rceil.
  f_equal. set (z := (- Int_part (- (x * 100)))%Z).
  replace (IZR z / 100) with (IZR z / 10 ^ 2) by (simpl; lra).
  apply toFixed_decimal.
Qed.

(** What the legacy function writes once the nine elevations are finite and
    the tower height is a finite number. *)
Lemma legacy_writes (Ac n05 n1 e05 e1 s05 s1 w05 w1 h : R) :
  let F := Fin (Number.Rceil
                  (Spec.raw_factor Ac (ring8 n05 n1 e05 e1 s05 s1 w05 w1) h * 100) / 100) in
  Legacy.calculateTotalElevation (legacyFields Ac n05 n1 e05 e1 s05 s1 w05 w1 (Fin h))
  = Some {| Legacy.orography_factor_comment := Legacy.comment F;
            Legacy.orography_factor := F |}.
Proof.
  intros F. unfold Legacy.calculateTotalElevation, legacyFields. cbn [Number.finite
    Legacy.elevation Legacy.elevation_north_05km Legacy.elevation_north_1km
    Legacy.elevation_south_05km Legacy.elevation_south_1km
    Legacy.elevation_east_05km Legacy.elevation_east_1km
    Legacy.elevation_west_05km Legacy.elevation_west_1km Legacy.height].
  rewrite legacy_meanElevation_spec, legacy_factor_spec, toFixed2_roundUp, roundUp_Fin.
  reflexivity.
Qed.

(** The legacy comment is the specification's three-way classification of
    the value it is given. *)
Lemma legacy_comment_classify (f : R) :
  Legacy.comment (Fin f) = legacyComment (Spec.classify f).
Proof.
  unfold Legacy.comment, Spec.classify, Number.le, Number.gt.
  destruct (Rle_dec f 1.0), (Rle_dec f 1), (Rlt_dec 1.15 f), (Rle_dec f 1.15),
    (Rlt_dec 1.0 f); simpl; try reflexivity; lra.
Qed.

(** ** Inversion of a successful computation *)

Lemma fetchElevations_ok_inv (gateway : list SamplePoint -> reply)
    (pts : list SamplePoint) (elevs : list (option R)) :
  fetchElevations gateway pts = Ok elevs ->
  exists status es,
    gateway pts = Response true status (Some es)
    /\ List.length es = List.length pts
    /\ elevs = map finite_value es.
Proof.
  unfold fetchElevations. intros H.
  destruct (gateway pts) as [| ok status [es |]]; try discriminate;
    destruct ok; simpl in H; try discriminate.
  destruct (Nat.eqb (List.length es) (List.length pts)) eqn:Hlen;
    simpl in H; try discriminate.
  inversion H; subst. exists status, es.
  repeat split. now apply Nat.eqb_eq.
Qed.

Lemma compute_ok_inv (gateway : list SamplePoint -> reply) (lon lat : R)
    (zRefMeters : number) (r : OrographyResult) :
  computeOrographyFactorComplex gateway lon lat zRefMeters = Ok r ->
  exists (a : R) (ring : list R),
    List.length ring = 8%nat
    /\ fetchElevations gateway (samplePoints lon lat) = Ok (Some a :: map Some ring)
    /\ r = {| c0 := floorFactor (rawFactor a (meanElevation a ring)
                                   (referenceHeight zRefMeters));
              Ac := a;
              Am := meanElevation a ring;
              points := samplePoints lon lat;
              elevations := Some a :: map Some ring |}.
Proof.
  unfold computeOrographyFactorComplex. cbv zeta. intros H.
  destruct (fetchElevations gateway (samplePoints lon lat)) as [elevs |] eqn:Hf;
    simpl in H; [| discriminate].
  destruct (fetchElevations_ok_inv _ _ _ Hf) as (status & es & _ & Hlen & Helevs).
  rewrite samplePoints_length in Hlen.
  destruct elevs as [| [a |] rest]; simpl in H; try discriminate.
  destruct (all_finite rest) as [ring |] eqn:Hall; [| discriminate].
  apply all_finite_inv in Hall. subst rest.
  exists a, ring. repeat split.
  - assert (Hl : List.length (Some a :: map Some ring) = 9%nat)
      by (rewrite Helevs, length_map; exact Hlen).
    simpl in Hl. rewrite length_map in Hl. lia.
  - now inversion H.
Qed.

(** ** The runner *)

Section RunnerFacts.

Variable gateway : list SamplePoint -> reply.
Variable geocodeAddress : string -> string -> result GeocodeHit.
Variable proj4_to_lambert : crs -> R * R -> R * R.
Variable proj4_to_wgs84 : crs -> R * R -> R * R.

Lemma validateLonLat_valid (lon lat : R) :
  -180 <= lon <= 180 -> -90 <= lat <= 90 ->
  validateLonLat (Some lon) (Some lat) = None.
Proof.
  intros Hlon Hlat. unfold validateLonLat.
  destruct (Rlt_dec lat (-90)); [lra |].
  destruct (Rlt_dec 90 lat); [lra |].
  destruct (Rlt_dec lon (-180)); [lra |].
  destruct (Rlt_dec 180 lon); [lra | reflexivity].
Qed.

Lemma resolve_lonlat (lon lat : R) (zRef : number) :
  -180 <= lon <= 180 -> -90 <= lat <= 90 ->
  resolveInput geocodeAddress proj4_to_wgs84 (lonlatForm (Fin lon) (Fin lat) zRef)
  = Ok (lon, lat, NoLabel).
Proof.
  intros Hlon Hlat. unfold resolveInput.
  cbn [inputType lonEl latEl lonlatForm toNumber Number.finite].
  now rewrite validateLonLat_valid.
Qed.

(** What a run that does not throw has put on the page. *)
Lemma run_ok_inv (f : Form) (page : Page) :
  snd (run gateway geocodeAddress proj4_to_lambert proj4_to_wgs84 f page) = Ok tt ->
  exists (lon lat zRef : R) (l : place_label) (r : OrographyResult),
    toNumber (zRefEl f) = Some zRef /\ 0 <= zRef
    /\ resolveInput geocodeAddress proj4_to_wgs84 f = Ok (lon, lat, l)
    /\ computeOrographyFactorComplex gateway lon lat (Fin zRef) = Ok r
    /\ orographyFactorEl (fst (run gateway geocodeAddress proj4_to_lambert proj4_to_wgs84 f page)) = Some (toFixed 3 (c0 r))
    /\ AcEl (fst (run gateway geocodeAddress proj4_to_lambert proj4_to_wgs84 f page)) = Some (toFixed 1 (Ac r))
    /\ AmEl (fst (run gateway geocodeAddress proj4_to_lambert proj4_to_wgs84 f page)) = Some (toFixed 1 (Am r))
    /\ warningEl (fst (run gateway geocodeAddress proj4_to_lambert proj4_to_wgs84 f page)) = (if Rlt_dec 1.15 (c0 r) then true else false)
    /\ statusEl (fst (run gateway geocodeAddress proj4_to_lambert proj4_to_wgs84 f page)) = StatusDone.
Proof.
  unfold run.
  destruct (toNumber (zRefEl f)) as [zRef |]; [| discriminate].
  destruct (Rlt_dec zRef 0) as [Hneg | Hpos]; [discriminate |].
  destruct (resolveInput geocodeAddress proj4_to_wgs84 f) as [[[lon lat] l] |];
    [| discriminate].
  destruct (wgs84ToLambert proj4_to_lambert lon lat (lambertDisplayCrs f))
    as [[lamX lamY] lamCrs].
  destruct (computeOrographyFactorComplex gateway lon lat (Fin zRef)) as [r |] eqn:Hc;
    [| discriminate].
  intros _. exists lon, lat, zRef, l, r. simpl.
  repeat split; try reflexivity; try assumption. lra.
Qed.

(** A run in longitude/latitude mode whose computation succeeds. *)
Lemma run_lonlat_ok (lon lat zRef : R) (r : OrographyResult) (page : Page) :
  -180 <= lon <= 180 -> -90 <= lat <= 90 -> 0 <= zRef ->
  computeOrographyFactorComplex gateway lon lat (Fin zRef) = Ok r ->
  let after := run gateway geocodeAddress proj4_to_lambert proj4_to_wgs84
                 (lonlatForm (Fin lon) (Fin lat) (Fin zRef)) page in
  snd after = Ok tt
  /\ orographyFactorEl (fst after) = Some (toFixed 3 (c0 r))
  /\ AcEl (fst after) = Some (toFixed 1 (Ac r))
  /\ AmEl (fst after) = Some (toFixed 1 (Am r))
  /\ warningEl (fst after) = (if Rlt_dec 1.15 (c0 r) then true else false).
Proof.
  intros Hlon Hlat Hz Hc. unfold run.
  rewrite resolve_lonlat by assumption.
  cbn [zRefEl lonlatForm toNumber Number.finite].
  destruct (Rlt_dec zRef 0); [lra |].
  destruct (wgs84ToLambert proj4_to_lambert lon lat _) as [[lamX lamY] lamCrs].
  rewrite Hc. simpl. repeat split.
Qed.

End RunnerFacts.

(** ** C1: the formula and its worked scenario *)

Lemma classify_steep (f : R) : 1.15 < f -> Spec.classify f = Spec.STEEP.
Proof.
  intros Hf. unfold Spec.classify.
  destruct (Rle_dec f 1); [lra |]. destruct (Rle_dec f 1.15); [lra | reflexivity].
Qed.

Lemma scenario_values (Ac h : R) (ring : list R) :
  Ac = 200 -> Spec.sum ring = 800 -> h = 10 ->
  Spec.Am Ac ring = 120 /\ Spec.attenuation h = 1 /\ Spec.raw_factor Ac ring h = 1.32.
Proof.
  intros HAc Hsum Hh.
  assert (HAm : Spec.Am Ac ring = 120) by (unfold Spec.Am; rewrite HAc, Hsum; lra).
  assert (Hat : Spec.attenuation h = 1) by (apply spec_attenuation_low; lra).
  repeat split; try assumption.
  unfold Spec.raw_factor. rewrite HAm, Hat, HAc. lra.
Qed.

Lemma toFixed3_1_32 : toFixed 3 1.32 = 1.32.
Proof.
  rewrite (toFixed_between 3 1.32 1320); simpl; lra.
Qed.

Lemma roundUp_1_32 : Legacy.roundUp (Fin 1.32) = Fin 1.32.
Proof.
  rewrite roundUp_Fin. f_equal.
  rewrite (Rceil_between (1.32 * 100) 132); lra.
Qed.

(** C1.  Given the center elevation [Ac], the eight ring elevations and the
    reference height [h], both scripts compute
    [Am = (2*Ac + sum of the ring) / 10] and the raw factor
    [1 + 0.004 * (Ac - Am) * exp (-0.014 * max 0 (z - 10))] with
    [z = max 0 h]: the current script returns [Am] and the raw factor floored
    at 1, the legacy script writes the raw factor rounded up to two decimals.
    For [Ac = 200], a ring summing to 800 and [h = 10] this gives [Am = 120],
    attenuation 1 and factor 1.32, shown with the steep advisory by both. *)
Theorem orography_formula
    (gateway : list SamplePoint -> reply)
    (geocodeAddress : string -> string -> result GeocodeHit)
    (proj4_to_lambert proj4_to_wgs84 : crs -> R * R -> R * R)
    (lon lat : R) (status : Z) (page : Page)
    (a n05 n1 e05 e1 s05 s1 w05 w1 h : R) :
  let ring := ring8 n05 n1 e05 e1 s05 s1 w05 w1 in
  gateway (samplePoints lon lat) = answer status (a :: ring) ->
  (* the current script *)
  rawFactor a (Spec.Am a ring) (referenceHeight (Fin h)) = Spec.raw_factor a ring h
  /\ computeOrographyFactorComplex gateway lon lat (Fin h)
     = Ok {| c0 := Rmax 1 (Spec.raw_factor a ring h);
             Ac := a;
             Am := Spec.Am a ring;
             points := samplePoints lon lat;
             elevations := map Some (a :: ring) |}
  (* the legacy script *)
  /\ Legacy.calculateTotalElevation (legacyFields a n05 n1 e05 e1 s05 s1 w05 w1 (Fin h))
     = (let F := Fin (Number.Rceil (Spec.raw_factor a ring h * 100) / 100) in
        Some {| Legacy.orography_factor_comment := Legacy.comment F;
                Legacy.orography_factor := F |})
  (* the scenario *)
  /\ (a = 200 -> Spec.sum ring = 800 -> h = 10 ->
      -180 <= lon <= 180 -> -90 <= lat <= 90 ->
      Spec.Am a ring = 120
      /\ Spec.attenuation h = 1
      /\ Spec.raw_factor a ring h = 1.32
      /\ (let after := run gateway geocodeAddress proj4_to_lambert proj4_to_wgs84
                         (lonlatForm (Fin lon) (Fin lat) (Fin h)) page in
          snd after = Ok tt
          /\ orographyFactorEl (fst after) = Some 1.32
          /\ warningEl (fst after) = true)
      /\ Legacy.calculateTotalElevation (legacyFields a n05 n1 e05 e1 s05 s1 w05 w1 (Fin h))
         = Some {| Legacy.orography_factor_comment := legacyComment Spec.STEEP;
                   Legacy.orography_factor := Fin 1.32 |}).
Proof.
  intros ring Hg.
  assert (Hc : computeOrographyFactorComplex gateway lon lat (Fin h)
               = Ok {| c0 := Rmax 1 (Spec.raw_factor a ring h); Ac := a;
                       Am := Spec.Am a ring; points := samplePoints lon lat;
                       elevations := map Some (a :: ring) |}).
  { rewrite (compute_ok gateway lon lat (Fin h) status
               (map (fun e => VNum (Fin e)) (a :: ring)) a ring Hg);
      [| reflexivity | reflexivity].
    now rewrite floorFactor_max, rawFactor_spec, meanElevation_spec. }
  pose proof (legacy_writes a n05 n1 e05 e1 s05 s1 w05 w1 h) as Hl. cbv zeta in Hl.
  fold ring in Hl.
  split; [| split; [exact Hc | split; [exact Hl |]]].
  - rewrite <- meanElevation_spec. apply rawFactor_spec.
  - intros Ha Hsum Hh Hlon Hlat.
    destruct (scenario_values a h ring Ha Hsum Hh) as (HAm & Hat & Hraw).
    repeat split; try assumption.
    + subst h. refine (proj1 (run_lonlat_ok gateway geocodeAddress proj4_to_lambert
                          proj4_to_wgs84 lon lat 10 _ page Hlon Hlat _ Hc)). lra.
    + subst h. destruct (run_lonlat_ok gateway geocodeAddress proj4_to_lambert
                          proj4_to_wgs84 lon lat 10 _ page Hlon Hlat ltac:(lra) Hc)
        as (_ & Hshown & _). rewrite Hshown. cbn [c0].
      rewrite Hraw, Rmax_right by lra. now rewrite toFixed3_1_32.
    + subst h. destruct (run_lonlat_ok gateway geocodeAddress proj4_to_lambert
                          proj4_to_wgs84 lon lat 10 _ page Hlon Hlat ltac:(lra) Hc)
        as (_ & _ & _ & _ & Hwarn). rewrite Hwarn. cbn [c0].
      rewrite Hraw, Rmax_right by lra. destruct (Rlt_dec 1.15 1.32); [reflexivity | lra].
    + rewrite Hl, Hraw.
      change (Fin (Number.Rceil (1.32 * 100) / 100)) with (Legacy.roundUp (Fin 1.32)).
      rewrite roundUp_1_32, legacy_comment_classify, classify_steep by lra.
      reflexivity.
Qed.

Lemma orography_formula_witness :
  hillGateway (samplePoints 4.3517 50.8503)
  = answer 200 (200 :: ring8 100 100 100 100 100 100 100 100)
  /\ computeOrographyFactorComplex hillGateway 4.3517 50.8503 (Fin 10)
     = Ok {| c0 := Rmax 1 (Spec.raw_factor 200 (ring8 100 100 100 100 100 100 100 100) 10);
             Ac := 200;
             Am := Spec.Am 200 (ring8 100 100 100 100 100 100 100 100);
             points := samplePoints 4.3517 50.8503;
             elevations := map Some (200 :: ring8 100 100 100 100 100 100 100 100) |}
  /\ Spec.raw_factor 200 (ring8 100 100 100 100 100 100 100 100) 10 = 1.32.
Proof.
  pose proof (orography_formula hillGateway noGeocoder noProjection noProjection
                4.3517 50.8503 200 blankPage
                200 100 100 100 100 100 100 100 100 10 eq_refl)
    as (_ & Hc & _ & Hs).
  split; [reflexivity | split; [exact Hc |]].
  apply Hs; try reflexivity; try lra.
  unfold Spec.sum, ring8; simpl; lra.
Defined.

(** ** C2: the floor at 1.0 *)

Lemma hill_result :
  computeOrographyFactorComplex hillGateway brusselsLon brusselsLat (Fin 10)
  = Ok {| c0 := floorFactor (rawFactor 200
                               (meanElevation 200 (ring8 100 100 100 100 100 100 100 100))
                               (referenceHeight (Fin 10)));
          Ac := 200;
          Am := meanElevation 200 (ring8 100 100 100 100 100 100 100 100);
          points := samplePoints brusselsLon brusselsLat;
          elevations := Some 200 :: map Some (ring8 100 100 100 100 100 100 100 100) |}.
Proof. reflexivity. Qed.


Lemma spec_raw_valley :
  Spec.raw_factor 100 (ring8 200 200 200 200 200 200 200 200) 10 = 0.68.
Proof.
  unfold Spec.raw_factor. rewrite spec_attenuation_low by lra.
  unfold Spec.Am, Spec.sum, ring8. simpl. lra.
Qed.

Lemma spec_raw_knoll : Spec.raw_factor 47 (ring8 0 0 0 0 0 0 0 0) 10 = 1.1504.
Proof.
  unfold Spec.raw_factor. rewrite spec_attenuation_low by lra.
  unfold Spec.Am, Spec.sum, ring8. simpl. lra.
Qed.

Lemma legacy_valley :
  Legacy.calculateTotalElevation
    (legacyFields 100 200 200 200 200 200 200 200 200 (Fin 10))
  = Some {| Legacy.orography_factor_comment := legacyComment Spec.FLAT;
            Legacy.orography_factor := Fin 0.68 |}.
Proof.
  rewrite legacy_writes. cbv zeta. rewrite spec_raw_valley.
  rewrite (Rceil_between (0.68 * 100) 68) by lra.
  replace (68 / 100) with 0.68 by lra.
  rewrite legacy_comment_classify. unfold Spec.classify.
  destruct (Rle_dec 0.68 1); [reflexivity | lra].
Qed.

Lemma computed_c0_floored (gateway : list SamplePoint -> reply) (lon lat : R)
    (zRefMeters : number) (r : OrographyResult) :
  computeOrographyFactorComplex gateway lon lat zRefMeters = Ok r ->
  c0 r = Rmax 1 (rawFactor (Ac r) (Am r) (referenceHeight zRefMeters))
  /\ 1 <= c0 r.
Proof.
  intros H.
  destruct (compute_ok_inv _ _ _ _ _ H) as (a & ring & _ & _ & ->). cbn [c0 Ac Am].
  rewrite floorFactor_max. split; [reflexivity | apply Rmax_l].
Qed.




(** ** C3: floor, rounding and classification *)

Lemma classify_steep_iff (f : R) : Spec.classify f = Spec.STEEP <-> 1.15 < f.
Proof.
  unfold Spec.classify. split.
  - destruct (Rle_dec f 1); [discriminate |].
    destruct (Rle_dec f 1.15); [discriminate | lra].
  - apply classify_steep.
Qed.

Lemma classify_flat_iff (f : R) : Spec.classify f = Spec.FLAT <-> f <= 1.
Proof.
  unfold Spec.classify. split.
  - destruct (Rle_dec f 1); [trivial |]. destruct (Rle_dec f 1.15); discriminate.
  - intros H. destruct (Rle_dec f 1); [reflexivity | lra].
Qed.

Lemma classify_transitional_iff (f : R) :
  Spec.classify f = Spec.TRANSITIONAL <-> 1 < f <= 1.15.
Proof.
  unfold Spec.classify. split.
  - destruct (Rle_dec f 1); [discriminate |].
    destruct (Rle_dec f 1.15); [lra | discriminate].
  - intros H. destruct (Rle_dec f 1); [lra |].
    destruct (Rle_dec f 1.15); [reflexivity | lra].
Qed.

Lemma knoll_result :
  computeOrographyFactorComplex knollGateway brusselsLon brusselsLat (Fin 10)
  = Ok {| c0 := Rmax 1 (Spec.raw_factor 47 (ring8 0 0 0 0 0 0 0 0) 10);
          Ac := 47;
          Am := Spec.Am 47 (ring8 0 0 0 0 0 0 0 0);
          points := samplePoints brusselsLon brusselsLat;
          elevations := map Some (47 :: ring8 0 0 0 0 0 0 0 0) |}.
Proof.
  rewrite (compute_ok knollGateway brusselsLon brusselsLat (Fin 10) 200
             (map (fun e => VNum (Fin e)) (47 :: ring8 0 0 0 0 0 0 0 0))
             47 (ring8 0 0 0 0 0 0 0 0)); try reflexivity.
  now rewrite floorFactor_max, rawFactor_spec, meanElevation_spec.
Qed.

Lemma toFixed3_1_1504 : toFixed 3 1.1504 = 1.15.
Proof.
  rewrite (toFixed_between 3 1.1504 1150); simpl; lra.
Qed.

Lemma brussels_valid : -180 <= brusselsLon <= 180 /\ -90 <= brusselsLat <= 90.
Proof. unfold brusselsLon, brusselsLat. lra. Qed.

(** C3, counterexample.  With 47 m at the site, sea level all around it and
    a reference height of 10 m the floored factor is 1.1504: the page prints
    1.150 and shows the steep warning, although the printed value classifies
    as TRANSITIONAL.  With 100 m at the site and 200 m around it the legacy
    script writes 0.68, where flooring first would give 1.00. *)
Lemma order_of_floor_round_classify_fails :
  (let after := run knollGateway noGeocoder noProjection noProjection
                  (lonlatForm (Fin brusselsLon) (Fin brusselsLat) (Fin 10)) blankPage in
   snd after = Ok tt
   /\ orographyFactorEl (fst after) = Some 1.15
   /\ warningEl (fst after) = true
   /\ Spec.floor_round_classify (toFixed 3)
        (Spec.raw_factor 47 (ring8 0 0 0 0 0 0 0 0) 10)
      = (1.15, Spec.TRANSITIONAL))
  /\ Legacy.calculateTotalElevation
       (legacyFields 100 200 200 200 200 200 200 200 200 (Fin 10))
     = Some {| Legacy.orography_factor_comment := Legacy.comment_flat;
               Legacy.orography_factor := Fin 0.68 |}
  /\ Spec.floor_round_classify (fun x => Number.Rceil (x * 100) / 100)
       (Spec.raw_factor 100 (ring8 200 200 200 200 200 200 200 200) 10)
     = (1, Spec.FLAT).
Proof.
  destruct brussels_valid as [Hlon Hlat].
  destruct (run_lonlat_ok knollGateway noGeocoder noProjection noProjection
              brusselsLon brusselsLat 10 _ blankPage Hlon Hlat ltac:(lra) knoll_result)
    as (Hok & Hshown & _ & _ & Hwarn).
  cbn [c0] in Hshown, Hwarn.
  rewrite spec_raw_knoll, Rmax_right in Hshown, Hwarn by lra.
  rewrite toFixed3_1_1504 in Hshown.
  destruct (Rlt_dec 1.15 1.1504) as [_ | Hn]; [| lra].
  split; [| split].
  - cbv zeta. repeat split; try assumption.
    unfold Spec.floor_round_classify. rewrite spec_raw_knoll, Rmax_right by lra.
    rewrite toFixed3_1_1504. f_equal. apply classify_transitional_iff. lra.
  - exact legacy_valley.
  - unfold Spec.floor_round_classify. rewrite spec_raw_valley, Rmax_left by lra.
    rewrite (Rceil_between (1 * 100) 100) by lra.
    replace (100 / 100) with 1 by lra. f_equal. apply classify_flat_iff. lra.
Qed.

(** C3, amended.  The current script floors the raw factor at 1.0, prints
    the floored value rounded to three decimals and decides the advisory on
    the floored, unrounded value with the single threshold 1.15 (the warning
    is shown exactly when that value classifies as STEEP).  The legacy script
    applies no floor, rounds the raw factor up to two decimals and classifies
    the rounded value: at most 1.0 is FLAT, above 1.0 and at most 1.15 is
    TRANSITIONAL, above 1.15 is STEEP. *)
Theorem floor_round_classify_order :
  (forall (gateway : list SamplePoint -> reply)
          (geocodeAddress : string -> string -> result GeocodeHit)
          (proj4_to_lambert proj4_to_wgs84 : crs -> R * R -> R * R)
          (f : Form) (page : Page),
      let after := run gateway geocodeAddress proj4_to_lambert proj4_to_wgs84 f page in
      snd after = Ok tt ->
      exists (lon lat zRef : R) (r : OrographyResult),
        computeOrographyFactorComplex gateway lon lat (Fin zRef) = Ok r
        /\ c0 r = Rmax 1 (rawFactor (Ac r) (Am r) (referenceHeight (Fin zRef)))
        /\ orographyFactorEl (fst after) = Some (toFixed 3 (c0 r))
        /\ (warningEl (fst after) = true <-> Spec.classify (c0 r) = Spec.STEEP))
  /\ (forall a n05 n1 e05 e1 s05 s1 w05 w1 h : R,
        let raw := Spec.raw_factor a (ring8 n05 n1 e05 e1 s05 s1 w05 w1) h in
        let rounded := Number.Rceil (raw * 100) / 100 in
        Legacy.calculateTotalElevation (legacyFields a n05 n1 e05 e1 s05 s1 w05 w1 (Fin h))
        = Some {| Legacy.orography_factor_comment := legacyComment (Spec.classify rounded);
                  Legacy.orography_factor := Fin rounded |})
  /\ (forall factor : R,
        (factor <= 1 -> Legacy.comment (Fin factor) = legacyComment Spec.FLAT)
        /\ (1 < factor <= 1.15 -> Legacy.comment (Fin factor) = legacyComment Spec.TRANSITIONAL)
        /\ (1.15 < factor -> Legacy.comment (Fin factor) = legacyComment Spec.STEEP)).
Proof.
  split; [| split].
  - intros gateway geocodeAddress proj4_to_lambert proj4_to_wgs84 f page after Hok.
    destruct (run_ok_inv _ _ _ _ _ _ Hok)
      as (lon & lat & zRef & l & r & _ & _ & _ & Hc & Hshown & _ & _ & Hwarn & _).
    exists lon, lat, zRef, r.
    split; [exact Hc |].
    split; [exact (proj1 (computed_c0_floored _ _ _ _ _ Hc)) |].
    split; [exact Hshown |].
    subst after. rewrite Hwarn, classify_steep_iff.
    destruct (Rlt_dec 1.15 (c0 r)); split; intros; try lra; try reflexivity; discriminate.
  - intros a n05 n1 e05 e1 s05 s1 w05 w1 h raw rounded.
    rewrite legacy_writes. cbv zeta. fold raw. fold rounded.
    now rewrite legacy_comment_classify.
  - intros factor. rewrite legacy_comment_classify.
    repeat split; intros H.
    + now rewrite (proj2 (classify_flat_iff factor)).
    + now rewrite (proj2 (classify_transitional_iff factor)).
    + now rewrite (proj2 (classify_steep_iff factor)).
Qed.

(** ** C4: the sample plan *)

Lemma asin_sin_small (d : R) : 0 <= d <= 1 -> asin (sin d) = d.
Proof.
  intros Hd. apply asin_sin. pose proof PI2_1. lra.
Qed.

(** Due north of the point (0, 0) the destination keeps the angle travelled
    as its latitude. *)
Lemma destination_north_of_origin (d : R) :
  0 <= d <= 6371000 ->
  ll_lat (destinationPoint 0 0 d 0) = radToDeg (d / 6371000).
Proof.
  intros Hd. unfold destinationPoint, degToRad. cbn [ll_lat].
  replace (0 * Math_PI / 180) with 0 by (unfold Rdiv; ring).
  rewrite sin_0, cos_0.
  replace (0 * cos (d / 6371000) + 1 * sin (d / 6371000) * 1) with (sin (d / 6371000)) by ring.
  rewrite asin_sin_small; [reflexivity |].
  split.
  - apply Rmult_le_pos; [lra | left; apply Rinv_0_lt_compat; lra].
  - apply (Rmult_le_reg_r 6371000); [lra |].
    unfold Rdiv. rewrite Rmult_assoc, Rinv_l; lra.
Qed.

Lemma radToDeg_pos (r : R) : 0 < r -> 0 < radToDeg r.
Proof.
  intros Hr. unfold radToDeg, Math_PI.
  apply Rmult_lt_0_compat; [lra | apply Rinv_0_lt_compat, PI_RGT_0].
Qed.

(** C4, counterexample.  At the origin (0, 0) the third position the legacy
    script asks for is half a kilometre to the south, on a flat-earth scale,
    whereas the third point of the plan, N-1000, lies north of the origin. *)
Lemma legacy_plan_differs :
  nth_error (Legacy.requests 0 0) 2
  = Some {| Legacy.target := "elevation_south_05km";
            Legacy.newLatitude := 0 - 0.5 / 111;
            Legacy.newLongitude := 0 |}
  /\ 0 - 0.5 / 111 < 0
  /\ option_map distanceM (nth_error (samplePoints 0 0) 2) = Some 1000
  /\ option_map bearingDeg (nth_error (samplePoints 0 0) 2) = Some (Some 0)
  /\ option_map lat (nth_error (samplePoints 0 0) 2)
     = Some (radToDeg (1000 / 6371000))
  /\ 0 < radToDeg (1000 / 6371000).
Proof.
  split; [reflexivity |]. split; [lra |].
  split; [reflexivity |]. split; [reflexivity |]. split.
  - unfold samplePoints. cbn [nth_error flat_map map bearings distances app
                                option_map lat snd fst].
    f_equal. apply destination_north_of_origin. lra.
  - apply radToDeg_pos. lra.
Qed.

(** C4, amended.  In the current script the sample plan of every origin is
    the nine points CENTER, N-500, N-1000, E-500, E-1000, S-500, S-1000,
    W-500, W-1000 in this order: CENTER is the origin at distance 0 with no
    bearing, the bearings are N = 0, E = 90, S = 180, W = 270 degrees, every
    other location is [destinationPoint] at 500 m or 1000 m; this list is what
    the elevation service is asked for and what the result carries.  The
    legacy script asks for the site and then for north, south, east, west at
    0.5 km and again at 1 km, one position per request, at flat-earth offsets
    of 111 km per degree. *)
Theorem sample_plan (lon lat : R) :
  let at_ := fun (name : string) (deg d : R) =>
               {| label := name;
                  lat := ll_lat (destinationPoint lat lon d deg);
                  lon := ll_lon (destinationPoint lat lon d deg);
                  distanceM := d;
                  bearingDeg := Some deg |} in
  samplePoints lon lat
  = [ {| label := "CENTER"; lat := lat; lon := lon; distanceM := 0; bearingDeg := None |};
      at_ "N" 0 500; at_ "N" 0 1000;
      at_ "E" 90 500; at_ "E" 90 1000;
      at_ "S" 180 500; at_ "S" 180 1000;
      at_ "W" 270 500; at_ "W" 270 1000 ]%string
  /\ List.length (samplePoints lon lat) = 9%nat
  /\ (forall (g1 g2 : list SamplePoint -> reply) (z : number),
        g1 (samplePoints lon lat) = g2 (samplePoints lon lat) ->
        computeOrographyFactorComplex g1 lon lat z
        = computeOrographyFactorComplex g2 lon lat z)
  /\ (forall (gateway : list SamplePoint -> reply) (z : number) (r : OrographyResult),
        computeOrographyFactorComplex gateway lon lat z = Ok r ->
        points r = samplePoints lon lat)
  /\ (let east := 111 * cos (lat * Math_PI / 180) in
      Legacy.requests lat lon
      = [ {| Legacy.target := "elevation";
             Legacy.newLatitude := lat; Legacy.newLongitude := lon |};
          {| Legacy.target := "elevation_north_05km";
             Legacy.newLatitude := lat + 0.5 / 111; Legacy.newLongitude := lon |};
          {| Legacy.target := "elevation_south_05km";
             Legacy.newLatitude := lat - 0.5 / 111; Legacy.newLongitude := lon |};
          {| Legacy.target := "elevation_east_05km";
             Legacy.newLatitude := lat; Legacy.newLongitude := lon + 0.5 / east |};
          {| Legacy.target := "elevation_west_05km";
             Legacy.newLatitude := lat; Legacy.newLongitude := lon - 0.5 / east |};
          {| Legacy.target := "elevation_north_1km";
             Legacy.newLatitude := lat + 1 / 111; Legacy.newLongitude := lon |};
          {| Legacy.target := "elevation_south_1km";
             Legacy.newLatitude := lat - 1 / 111; Legacy.newLongitude := lon |};
          {| Legacy.target := "elevation_east_1km";
             Legacy.newLatitude := lat; Legacy.newLongitude := lon + 1 / east |};
          {| Legacy.target := "elevation_west_1km";
             Legacy.newLatitude := lat; Legacy.newLongitude := lon - 1 / east |} ]%string).
Proof.
  intros at_.
  split; [reflexivity |]. split; [reflexivity |]. split; [| split].
  - intros g1 g2 z Hg.
    unfold computeOrographyFactorComplex, fetchElevations. cbv zeta. now rewrite Hg.
  - intros gateway z r H.
    destruct (compute_ok_inv _ _ _ _ _ H) as (a & ring & _ & _ & ->). reflexivity.
  - reflexivity.
Qed.

(** ** C5: missing elevations *)

Lemma all_finite_missing (l : list (option R)) (j : nat) :
  nth_error l j = Some None -> all_finite l = None.
Proof.
  revert j. induction l as [| [e |] l IH]; intros [| j] H; simpl in *;
    try discriminate; try reflexivity.
  now rewrite (IH j H).
Qed.

Lemma nth_error_unavailable (es : list value) (i : nat) :
  (i < List.length es)%nat ->
  (forall v, nth_error es i = Some v -> finite_value v = None) ->
  nth_error (map finite_value es) i = Some None.
Proof.
  intros Hi Hv. rewrite nth_error_map.
  destruct (nth_error es i) as [v |] eqn:Hn.
  - simpl. now rewrite (Hv v).
  - apply nth_error_None in Hn. lia.
Qed.

(** The three ways an answer of the service makes the computation throw. *)
Lemma compute_fails (gateway : list SamplePoint -> reply) (lon lat : R)
    (zRefMeters : number) (status : Z) (es : list value) :
  gateway (samplePoints lon lat) = Response true status (Some es) ->
  (List.length es <> 9%nat
   \/ exists i, (i < 9)%nat
                /\ forall v, nth_error es i = Some v -> finite_value v = None) ->
  computeOrographyFactorComplex gateway lon lat zRefMeters = Err UnexpectedElevationResponse
  \/ computeOrographyFactorComplex gateway lon lat zRefMeters = Err SiteElevationError
  \/ computeOrographyFactorComplex gateway lon lat zRefMeters = Err SampledElevationsError.
Proof.
  intros Hg Hbad.
  unfold computeOrographyFactorComplex, fetchElevations. cbv zeta.
  rewrite Hg, samplePoints_length. cbn [negb].
  destruct (Nat.eqb (List.length es) 9) eqn:Hlen; cbn [negb bind]; [| now left].
  apply Nat.eqb_eq in Hlen.
  destruct Hbad as [Hne | (i & Hi & Hv)]; [contradiction |].
  assert (Hnone : nth_error (map finite_value es) i = Some None)
    by (apply nth_error_unavailable; [lia | exact Hv]).
  destruct (map finite_value es) as [| [a |] rest] eqn:Hm.
  - destruct i; discriminate.
  - destruct i as [| j]; [discriminate |]. simpl in Hnone. cbn [nth_error tl].
    rewrite (all_finite_missing rest j Hnone). now right; right.
  - cbn [nth_error]. now right; left.
Qed.

Section SubmitFacts.

Variable gateway : list SamplePoint -> reply.
Variable geocodeAddress : string -> string -> result GeocodeHit.
Variable proj4_to_lambert : crs -> R * R -> R * R.
Variable proj4_to_wgs84 : crs -> R * R -> R * R.

(** A run that throws leaves the three result elements as it found them. *)
Lemma run_err_results (f : Form) (page : Page) (e : error) :
  snd (run gateway geocodeAddress proj4_to_lambert proj4_to_wgs84 f page) = Err e ->
  let after := fst (run gateway geocodeAddress proj4_to_lambert proj4_to_wgs84 f page) in
  orographyFactorEl after = orographyFactorEl page
  /\ AcEl after = AcEl page
  /\ AmEl after = AmEl page
  /\ warningEl after = false.
Proof.
  unfold run.
  destruct (toNumber (zRefEl f)) as [zRef |]; [| now intros _].
  destruct (Rlt_dec zRef 0); [now intros _ |].
  destruct (resolveInput geocodeAddress proj4_to_wgs84 f) as [[[lon lat] l] |];
    [| now intros _].
  destruct (wgs84ToLambert proj4_to_lambert lon lat (lambertDisplayCrs f))
    as [[lamX lamY] lamCrs].
  destruct (computeOrographyFactorComplex gateway lon lat (Fin zRef)) as [r |];
    [discriminate | now intros _].
Qed.

(** The run reaches the computation with the resolved origin and height. *)
Lemma run_compute_err (f : Form) (page : Page) (lon lat zRef : R)
    (l : place_label) (e : error) :
  toNumber (zRefEl f) = Some zRef -> 0 <= zRef ->
  resolveInput geocodeAddress proj4_to_wgs84 f = Ok (lon, lat, l) ->
  computeOrographyFactorComplex gateway lon lat (Fin zRef) = Err e ->
  snd (run gateway geocodeAddress proj4_to_lambert proj4_to_wgs84 f page) = Err e.
Proof.
  intros Hz Hpos Hres Hc. unfold run. rewrite Hz.
  destruct (Rlt_dec zRef 0); [lra |]. rewrite Hres.
  destruct (wgs84ToLambert proj4_to_lambert lon lat (lambertDisplayCrs f))
    as [[lamX lamY] lamCrs].
  now rewrite Hc.
Qed.

(** After a submit whose run throws, the page shows the error and no
    result. *)
Lemma submit_err (f : Form) (page : Page) (e : error) :
  snd (run gateway geocodeAddress proj4_to_lambert proj4_to_wgs84 f (clearOutputs page))
  = Err e ->
  let after := submit gateway geocodeAddress proj4_to_lambert proj4_to_wgs84 f page in
  statusEl after = StatusError e
  /\ orographyFactorEl after = None
  /\ AcEl after = None
  /\ AmEl after = None
  /\ warningEl after = false.
Proof.
  intros Hrun. pose proof (run_err_results f (clearOutputs page) e Hrun) as Hres.
  cbv zeta in Hres. unfold submit.
  destruct (run gateway geocodeAddress proj4_to_lambert proj4_to_wgs84 f (clearOutputs page))
    as [p outcome]. simpl in Hrun, Hres. subst outcome. simpl.
  destruct Hres as (H1 & H2 & H3 & H4). repeat split; assumption.
Qed.

End SubmitFacts.

(** C5.  When the service's answer has not as many entries as points were
    asked for, or its entry for the center (index 0) or for one of the eight
    ring points (indices 1 to 8) is not a finite number, the computation
    throws and returns no result; a submit then shows the error and leaves
    the factor, Ac and Am cleared. *)
Theorem missing_elevation_fails
    (gateway : list SamplePoint -> reply)
    (geocodeAddress : string -> string -> result GeocodeHit)
    (proj4_to_lambert proj4_to_wgs84 : crs -> R * R -> R * R)
    (f : Form) (page : Page) (lon lat zRef : R) (l : place_label)
    (status : Z) (es : list value) :
  toNumber (zRefEl f) = Some zRef -> 0 <= zRef ->
  resolveInput geocodeAddress proj4_to_wgs84 f = Ok (lon, lat, l) ->
  gateway (samplePoints lon lat) = Response true status (Some es) ->
  (List.length es <> List.length (samplePoints lon lat)
   \/ (forall v, nth_error es 0 = Some v -> finite_value v = None)
   \/ exists i, (1 <= i <= 8)%nat
                /\ forall v, nth_error es i = Some v -> finite_value v = None) ->
  (forall z : number, is_ok (computeOrographyFactorComplex gateway lon lat z) = false)
  /\ (exists e : error,
        computeOrographyFactorComplex gateway lon lat (Fin zRef) = Err e
        /\ (e = UnexpectedElevationResponse \/ e = SiteElevationError
            \/ e = SampledElevationsError)
        /\ let after := submit gateway geocodeAddress proj4_to_lambert proj4_to_wgs84
                          f page in
           statusEl after = StatusError e
           /\ orographyFactorEl after = None
           /\ AcEl after = None
           /\ AmEl after = None).
Proof.
  intros Hz Hpos Hres Hg Hbad.
  assert (Hbad' : List.length es <> 9%nat
                  \/ exists i, (i < 9)%nat
                     /\ forall v, nth_error es i = Some v -> finite_value v = None).
  { rewrite samplePoints_length in Hbad.
    destruct Hbad as [H | [H | (i & Hi & H)]]; [now left | right | right].
    - exists 0%nat. split; [lia | exact H].
    - exists i. split; [lia | exact H]. }
  split.
  - intros z.
    destruct (compute_fails gateway lon lat z status es Hg Hbad') as [H | [H | H]];
      now rewrite H.
  - assert (He : exists e, computeOrographyFactorComplex gateway lon lat (Fin zRef) = Err e
                           /\ (e = UnexpectedElevationResponse \/ e = SiteElevationError
                               \/ e = SampledElevationsError)).
    { destruct (compute_fails gateway lon lat (Fin zRef) status es Hg Hbad')
        as [H | [H | H]]; eexists; (split; [exact H |]); tauto. }
    destruct He as (e & Hc & Hkind). exists e.
    split; [exact Hc |]. split; [exact Hkind |].
    pose proof (run_compute_err gateway geocodeAddress proj4_to_lambert proj4_to_wgs84
                  f (clearOutputs page) lon lat zRef l e Hz Hpos Hres Hc) as Hrun.
    destruct (submit_err gateway geocodeAddress proj4_to_lambert proj4_to_wgs84
                f page e Hrun) as (H1 & H2 & H3 & H4 & _).
    cbv zeta. repeat split; assumption.
Qed.

(** ** C6 and C8: the destination point *)

Lemma radToDeg_degToRad (d : R) : radToDeg (degToRad d) = d.
Proof.
  unfold radToDeg, degToRad, Math_PI. field. apply PI_neq0.
Qed.

Lemma atan2_bounds (y x : R) : - PI < Math_atan2 y x <= PI.
Proof.
  pose proof PI_RGT_0 as Hpi. unfold Math_atan2.
  destruct (Rlt_dec 0 x) as [Hx | Hx].
  - destruct (atan_bound (y / x)). lra.
  - destruct (Rlt_dec x 0) as [Hx' | Hx'].
    + assert (Hinv : / x < 0) by now apply Rinv_lt_0_compat.
      destruct (Rle_dec 0 y) as [Hy | Hy].
      * assert (Hq : y / x <= 0) by (unfold Rdiv; nra).
        assert (Ha : atan (y / x) <= 0).
        { rewrite <- atan_0. destruct Hq as [Hq | Hq].
          - left. now apply atan_increasing.
          - rewrite Hq. lra. }
        destruct (atan_bound (y / x)). lra.
      * assert (Hq : 0 < y / x) by (unfold Rdiv; nra).
        assert (Ha : 0 < atan (y / x)) by (rewrite <- atan_0; now apply atan_increasing).
        destruct (atan_bound (y / x)). lra.
    + destruct (Rlt_dec 0 y); [lra |]. destruct (Rlt_dec y 0); lra.
Qed.


(** The longitude normalisation on the range that a valid origin and any
    turn of at most half a revolution can produce. *)
Lemma normalise_range (d : R) : -540 <= d -> -180 <= rem (d + 540) 360 - 180 < 180.
Proof.
  intros Hd. destruct (rem_range (d + 540) 360); lra.
Qed.













(** ** C7: a negative reference height *)

Lemma referenceHeight_negative (h : R) : h < 0 -> referenceHeight (Fin h) = 0.
Proof.
  intros Hh. unfold referenceHeight, Math_max. cbn [Number.finite].
  apply Rmax_left. lra.
Qed.

Lemma referenceHeight_zero : referenceHeight (Fin 0) = 0.
Proof.
  unfold referenceHeight, Math_max. cbn [Number.finite]. apply Rmax_left. lra.
Qed.

Lemma compute_depends_on_referenceHeight (gateway : list SamplePoint -> reply)
    (lon lat : R) (z1 z2 : number) :
  referenceHeight z1 = referenceHeight z2 ->
  computeOrographyFactorComplex gateway lon lat z1
  = computeOrographyFactorComplex gateway lon lat z2.
Proof.
  intros Hz. unfold computeOrographyFactorComplex. cbv zeta. now rewrite Hz.
Qed.

(** C7.  A negative reference height never enters the attenuation formula:
    [run] rejects it before anything is resolved, requested or computed,
    whatever the elevation service would answer, so that a submit shows the
    error and no factor; [computeOrographyFactorComplex], called with it
    directly, replaces it by [z = max 0 h = 0] and so computes what it
    computes for height 0, with attenuation 1. *)
Theorem negative_reference_height (h : R) :
  h < 0 ->
  (forall (gateway : list SamplePoint -> reply)
          (geocodeAddress : string -> string -> result GeocodeHit)
          (proj4_to_lambert proj4_to_wgs84 : crs -> R * R -> R * R)
          (f : Form) (page : Page),
      zRefEl f = Fin h ->
      snd (run gateway geocodeAddress proj4_to_lambert proj4_to_wgs84 f page)
      = Err ReferenceHeightError
      /\ let after := submit gateway geocodeAddress proj4_to_lambert proj4_to_wgs84
                        f page in
         statusEl after = StatusError ReferenceHeightError
         /\ orographyFactorEl after = None
         /\ coordsLines after = None)
  /\ referenceHeight (Fin h) = 0
  /\ attenuation (referenceHeight (Fin h)) = 1
  /\ (forall (gateway : list SamplePoint -> reply) (lon lat : R),
        computeOrographyFactorComplex gateway lon lat (Fin h)
        = computeOrographyFactorComplex gateway lon lat (Fin 0)).
Proof.
  intros Hh.
  pose proof (referenceHeight_negative h Hh) as Hz.
  split; [| split; [exact Hz | split]].
  - intros gateway geocodeAddress proj4_to_lambert proj4_to_wgs84 f page Hf.
    unfold submit, run. rewrite Hf. cbn [toNumber Number.finite].
    destruct (Rlt_dec h 0); [| lra]. simpl. repeat split.
  - rewrite Hz. apply attenuation_at_most_10. lra.
  - intros gateway lon lat. apply compute_depends_on_referenceHeight.
    now rewrite Hz, referenceHeight_zero.
Qed.

Lemma negative_reference_height_witness :
  -5 < 0
  /\ snd (run hillGateway noGeocoder noProjection noProjection
            (lonlatForm (Fin brusselsLon) (Fin brusselsLat) (Fin (-5))) blankPage)
     = Err ReferenceHeightError
  /\ referenceHeight (Fin (-5)) = 0.
Proof.
  assert (H : -5 < 0) by lra.
  destruct (negative_reference_height (-5) H) as (Hrun & Hz & _).
  split; [exact H | split; [| exact Hz]].
  exact (proj1 (Hrun hillGateway noGeocoder noProjection noProjection
                  (lonlatForm (Fin brusselsLon) (Fin brusselsLat) (Fin (-5)))
                  blankPage eq_refl)).
Defined.

(** ** C9: the Lambert system of a raw northing *)

(** C9.  The heuristic selects Lambert 72 (EPSG:31370), the system with the
    larger false northing, exactly when the northing exceeds 2,000,000, and
    Lambert 2008 (EPSG:3812) otherwise. *)
Theorem lambert_disambiguation (northing : R) :
  (detectLambertCrs (Some northing) = EPSG31370 <-> 2000000 < northing)
  /\ (detectLambertCrs (Some northing) = EPSG3812 <-> northing <= 2000000)
  /\ detectLambertCrs None = EPSG3812
  /\ false_northing EPSG3812 < false_northing EPSG31370.
Proof.
  unfold detectLambertCrs, false_northing.
  destruct (Rlt_dec 2000000 northing) as [H | H].
  - repeat split; try (intros; assumption); try lra; try reflexivity; discriminate.
  - repeat split; try (intros; lra); try reflexivity; discriminate.
Qed.

(** ** C10: the legacy tower height *)

Lemma legacy_factor_NaN (DeltaAc : R) :
  Legacy.factor DeltaAc NaN = Fin (1 + 0.004 * DeltaAc * exp (-0.014 * (10 - 10))).
Proof. reflexivity. Qed.

Lemma legacy_factor_low (DeltaAc h : R) :
  h <= 10 ->
  Legacy.factor DeltaAc (Fin h) = Fin (1 + 0.004 * DeltaAc * exp (-0.014 * (10 - 10))).
Proof.
  intros Hh. unfold Legacy.factor, Number.gt.
  destruct (Rlt_dec 10 h); [lra | reflexivity].
Qed.

(** C10.  The legacy script does not validate the tower height: when the
    height field parses as NaN, and the nine elevations are on the page, the
    script still writes a comment and a factor, computed with attenuation 1,
    the same as for any height of at most 10 m. *)
Theorem legacy_height_not_validated (a n05 n1 e05 e1 s05 s1 w05 w1 : R) :
  let ring := ring8 n05 n1 e05 e1 s05 s1 w05 w1 in
  let raw := 1 + 0.004 * (a - Spec.Am a ring) * 1 in
  let written := Number.Rceil (raw * 100) / 100 in
  Legacy.calculateTotalElevation (legacyFields a n05 n1 e05 e1 s05 s1 w05 w1 NaN)
  = Some {| Legacy.orography_factor_comment := Legacy.comment (Fin written);
            Legacy.orography_factor := Fin written |}
  /\ (forall h : R,
        h <= 10 ->
        Legacy.calculateTotalElevation (legacyFields a n05 n1 e05 e1 s05 s1 w05 w1 NaN)
        = Legacy.calculateTotalElevation
            (legacyFields a n05 n1 e05 e1 s05 s1 w05 w1 (Fin h))).
Proof.
  intros ring raw written.
  assert (Hlow : forall h : R,
             h <= 10 ->
             Legacy.calculateTotalElevation (legacyFields a n05 n1 e05 e1 s05 s1 w05 w1 NaN)
             = Legacy.calculateTotalElevation
                 (legacyFields a n05 n1 e05 e1 s05 s1 w05 w1 (Fin h))).
  { intros h Hh. unfold Legacy.calculateTotalElevation, legacyFields.
    cbn [Number.finite
           Legacy.elevation Legacy.elevation_north_05km Legacy.elevation_north_1km
           Legacy.elevation_south_05km Legacy.elevation_south_1km
           Legacy.elevation_east_05km Legacy.elevation_east_1km
           Legacy.elevation_west_05km Legacy.elevation_west_1km Legacy.height].
    now rewrite legacy_factor_NaN, (legacy_factor_low _ h Hh). }
  split; [| exact Hlow].
  rewrite (Hlow 10) by lra. rewrite legacy_writes. cbv zeta.
  unfold Spec.raw_factor. rewrite spec_attenuation_low by lra. reflexivity.
Qed.

(** ** The statements at concrete inputs *)

Lemma floor_round_classify_order_witness :
  snd (run hillGateway noGeocoder noProjection noProjection
         (lonlatForm (Fin brusselsLon) (Fin brusselsLat) (Fin 10)) blankPage) = Ok tt
  /\ exists (lon lat zRef : R) (r : OrographyResult),
       computeOrographyFactorComplex hillGateway lon lat (Fin zRef) = Ok r
       /\ c0 r = Rmax 1 (rawFactor (Ac r) (Am r) (referenceHeight (Fin zRef)))
       /\ orographyFactorEl
            (fst (run hillGateway noGeocoder noProjection noProjection
                    (lonlatForm (Fin brusselsLon) (Fin brusselsLat) (Fin 10)) blankPage))
          = Some (toFixed 3 (c0 r))
       /\ (warningEl
             (fst (run hillGateway noGeocoder noProjection noProjection
                     (lonlatForm (Fin brusselsLon) (Fin brusselsLat) (Fin 10)) blankPage))
           = true <-> Spec.classify (c0 r) = Spec.STEEP).
Proof.
  destruct brussels_valid as [Hlon Hlat].
  assert (Hz : 0 <= 10) by lra.
  pose proof (proj1 (run_lonlat_ok hillGateway noGeocoder noProjection noProjection
                       brusselsLon brusselsLat 10 _ blankPage Hlon Hlat Hz hill_result))
    as Hok.
  split; [exact Hok |].
  exact (proj1 floor_round_classify_order hillGateway noGeocoder noProjection noProjection
           (lonlatForm (Fin brusselsLon) (Fin brusselsLat) (Fin 10)) blankPage Hok).
Defined.

Lemma sample_plan_witness :
  List.length (samplePoints brusselsLon brusselsLat) = 9%nat
  /\ points {| c0 := floorFactor (rawFactor 200
                               (meanElevation 200 (ring8 100 100 100 100 100 100 100 100))
                               (referenceHeight (Fin 10)));
               Ac := 200;
               Am := meanElevation 200 (ring8 100 100 100 100 100 100 100 100);
               points := samplePoints brusselsLon brusselsLat;
               elevations := Some 200 :: map Some (ring8 100 100 100 100 100 100 100 100) |}
     = samplePoints brusselsLon brusselsLat.
Proof.
  destruct (sample_plan brusselsLon brusselsLat) as (_ & Hlen & _ & Hpts & _).
  split; [exact Hlen |].
  exact (Hpts hillGateway (Fin 10) _ hill_result).
Defined.

Lemma missing_elevation_fails_witness :
  toNumber (zRefEl (lonlatForm (Fin brusselsLon) (Fin brusselsLat) (Fin 10))) = Some 10
  /\ gapGateway (samplePoints brusselsLon brusselsLat)
     = Response true 200
         (Some (VNum (Fin 200) :: VNull
                  :: map (fun e => VNum (Fin e)) [100; 100; 100; 100; 100; 100; 100]))
  /\ (forall z : number,
        is_ok (computeOrographyFactorComplex gapGateway brusselsLon brusselsLat z) = false).
Proof.
  destruct brussels_valid as [Hlon Hlat].
  assert (Hz : 0 <= 10) by lra.
  split; [reflexivity | split; [reflexivity |]].
  refine (proj1 (missing_elevation_fails gapGateway noGeocoder noProjection noProjection
                   (lonlatForm (Fin brusselsLon) (Fin brusselsLat) (Fin 10)) blankPage
                   brusselsLon brusselsLat 10 NoLabel 200 _ eq_refl Hz
                   (resolve_lonlat noGeocoder noProjection brusselsLon brusselsLat (Fin 10)
                      Hlon Hlat)
                   eq_refl _)).
  right; right. exists 1%nat. split; [lia |].
  intros v Hv. inversion Hv. reflexivity.
Defined.

Lemma legacy_height_not_validated_witness :
  10 <= 10
  /\ Legacy.calculateTotalElevation
       (legacyFields 200 100 100 100 100 100 100 100 100 NaN)
     = Legacy.calculateTotalElevation
         (legacyFields 200 100 100 100 100 100 100 100 100 (Fin 10)).
Proof.
  assert (H : 10 <= 10) by lra.
  split; [exact H |].
  exact (proj2 (legacy_height_not_validated 200 100 100 100 100 100 100 100 100) 10 H).
Defined.

(** * Further properties of the two scripts *)

(** ** Validation and the geodesy helpers *)

Lemma validateLonLat_None_inv (lon lat : R) :
  validateLonLat (Some lon) (Some lat) = None ->
  -180 <= lon <= 180 /\ -90 <= lat <= 90.
Proof.
  simpl.
  destruct (Rlt_dec lat (-90)); [discriminate |].
  destruct (Rlt_dec 90 lat); [discriminate |].
  destruct (Rlt_dec lon (-180)); [discriminate |].
  destruct (Rlt_dec 180 lon); [discriminate |].
  intros _. lra.
Qed.

(** X1.  Over all Numbers, [validateLonLat] reports no error exactly when
    neither argument is [null] and each is either NaN or a finite value in
    its range, [-90, 90] for the latitude and [-180, 180] for the longitude:
    infinities and finite values out of range are refused, while NaN passes
    the four comparisons.  On [null] and finite arguments, which is what
    [toNumber] yields, it is the range check used by [run]; a latitude out of
    range is reported before the longitude is looked at. *)
Theorem validateLonLat_accepts (lon lat : option number) :
  (validateLonLatNumbers lon lat = None
   <-> exists x y : number,
         lon = Some x /\ lat = Some y
         /\ (x = NaN \/ exists r : R, x = Fin r /\ -180 <= r <= 180)
         /\ (y = NaN \/ exists r : R, y = Fin r /\ -90 <= r <= 90))
  /\ (forall a b : option R,
        validateLonLatNumbers (option_map Fin a) (option_map Fin b) = validateLonLat a b)
  /\ (forall (x : number) (r : R),
        lon = Some x -> lat = Some (Fin r) -> (r < -90 \/ 90 < r) ->
        validateLonLatNumbers lon lat = Some LatitudeRange).
Proof.
  split; [split | split].
  - destruct lon as [x |], lat as [y |]; try discriminate.
    intros H. exists x, y. split; [reflexivity | split; [reflexivity |]].
    unfold validateLonLatNumbers, Number.gt in H.
    destruct y as [| | | ry]; try discriminate; destruct x as [| | | rx]; try discriminate;
      repeat match type of H with
             | context [Rlt_dec ?a ?b] => destruct (Rlt_dec a b); try discriminate
             end;
      split; try (now left); right; eexists; (split; [reflexivity | lra]).
  - intros (x & y & -> & -> & Hx & Hy).
    unfold validateLonLatNumbers, Number.gt.
    destruct Hx as [-> | (rx & -> & Hrx)], Hy as [-> | (ry & -> & Hry)];
      repeat match goal with
             | |- context [Rlt_dec ?a ?b] => destruct (Rlt_dec a b); try lra
             end;
      reflexivity.
  - intros [a |] [b |]; try reflexivity.
    unfold validateLonLatNumbers, validateLonLat, option_map, Number.gt.
    destruct (Rlt_dec b (-90)); [reflexivity |].
    destruct (Rlt_dec 90 b); [reflexivity |].
    destruct (Rlt_dec a (-180)); [reflexivity |].
    destruct (Rlt_dec 180 a); reflexivity.
  - intros x r -> -> Hr. unfold validateLonLatNumbers, Number.gt.
    destruct (Rlt_dec r (-90)); [reflexivity |].
    destruct (Rlt_dec 90 r); [reflexivity | lra].
Qed.



Lemma radToDeg_le (a b : R) : a <= b -> radToDeg a <= radToDeg b.
Proof.
  intros H. unfold radToDeg, Math_PI. pose proof PI_RGT_0 as Hpi.
  apply Rmult_le_compat_r; [left; now apply Rinv_0_lt_compat | lra].
Qed.

Lemma degToRad_le (a b : R) : a <= b -> degToRad a <= degToRad b.
Proof.
  intros H. unfold degToRad, Math_PI. pose proof PI_RGT_0 as Hpi.
  apply Rmult_le_compat_r; [lra | nra].
Qed.

Lemma radToDeg_half_pi : radToDeg (PI / 2) = 90.
Proof.
  unfold radToDeg, Math_PI. field. apply PI_neq0.
Qed.

Lemma radToDeg_plus (a b : R) : radToDeg (a + b) = radToDeg a + radToDeg b.
Proof.
  unfold radToDeg, Math_PI. field. apply PI_neq0.
Qed.

Lemma radToDeg_minus (a b : R) : radToDeg (a - b) = radToDeg a - radToDeg b.
Proof.
  unfold radToDeg, Math_PI. field. apply PI_neq0.
Qed.

(** The latitude of a destination is an arc sine turned into degrees. *)
Lemma destination_lat_range (lat lon distanceM bearingDeg : R) :
  -90 <= ll_lat (destinationPoint lat lon distanceM bearingDeg) <= 90.
Proof.
  unfold destinationPoint. cbn [ll_lat].
  match goal with
  | |- context [asin ?s] => destruct (asin_bound s) as [Hlo Hhi]; set (phi2 := asin s) in *
  end.
  assert (Hneg : radToDeg (- (PI / 2)) = -90)
    by (unfold radToDeg, Math_PI; field; apply PI_neq0).
  pose proof (radToDeg_le _ _ Hlo) as H1. pose proof (radToDeg_le _ _ Hhi) as H2.
  rewrite Hneg in H1. rewrite radToDeg_half_pi in H2. lra.
Qed.

(** The longitude of a destination from a longitude in range. *)
Lemma destination_lon_range (lat lon distanceM bearingDeg : R) :
  -180 <= lon <= 180 ->
  -180 <= ll_lon (destinationPoint lat lon distanceM bearingDeg) < 180.
Proof.
  intros Hlon. unfold destinationPoint. cbn [ll_lon].
  match goal with
  | |- context [Math_atan2 ?y ?x] =>
      pose proof (atan2_bounds y x) as Hat; set (turn := Math_atan2 y x) in *
  end.
  apply normalise_range.
  rewrite radToDeg_plus, radToDeg_degToRad.
  assert (- 180 <= radToDeg turn).
  { replace (-180) with (radToDeg (- PI))
      by (unfold radToDeg, Math_PI; field; apply PI_neq0).
    apply radToDeg_le. lra. }
  lra.
Qed.



(** X5.  For an origin that passes [validateLonLat], each of the nine points
    sent to the elevation service passes it too. *)
Theorem samplePoints_valid (lon0 lat0 : R) :
  validateLonLat (Some lon0) (Some lat0) = None ->
  Forall (fun p : SamplePoint => validateLonLat (Some (lon p)) (Some (lat p)) = None)
         (samplePoints lon0 lat0).
Proof.
  intros Hv. destruct (validateLonLat_None_inv lon0 lat0 Hv) as [Hlon _].
  unfold samplePoints. cbn [flat_map map bearings distances app fst snd].
  repeat constructor; cbn [lon lat]; try exact Hv;
    (apply validateLonLat_valid; [| apply destination_lat_range]);
    match goal with
    | |- _ <= ll_lon (destinationPoint ?a ?b ?c ?d) <= _ =>
        destruct (destination_lon_range a b c d Hlon); lra
    end.
Qed.

Lemma samplePoints_valid_witness :
  validateLonLat (Some brusselsLon) (Some brusselsLat) = None
  /\ Forall (fun p : SamplePoint => validateLonLat (Some (lon p)) (Some (lat p)) = None)
        (samplePoints brusselsLon brusselsLat).
Proof.
  destruct brussels_valid as [Hlon Hlat].
  pose proof (validateLonLat_valid brusselsLon brusselsLat Hlon Hlat) as Hv.
  split; [exact Hv |].
  exact (samplePoints_valid brusselsLon brusselsLat Hv).
Defined.

Lemma validateLonLat_accepts_witness :
  validateLonLatNumbers (Some NaN) (Some (Fin 95)) = Some LatitudeRange.
Proof.
  refine (proj2 (proj2 (validateLonLat_accepts (Some NaN) (Some (Fin 95))))
            NaN 95 eq_refl eq_refl _).
  right. lra.
Defined.




(** ** The elevation request *)

(** X6.  [fetchElevations] returns a list exactly when the service's
    response is ok and carries an array with as many entries as points were
    sent; the list then has that length, and its entry at each index is the
    service's entry at the same index when that is a finite number and [null]
    otherwise.  A response that is not ok is reported with its status even
    when its body is well formed. *)
Theorem fetchElevations_aligned (gateway : list SamplePoint -> reply)
    (pts : list SamplePoint) :
  (forall elevs : list (option R),
      fetchElevations gateway pts = Ok elevs
      <-> exists (status : Z) (es : list value),
            gateway pts = Response true status (Some es)
            /\ List.length es = List.length pts
            /\ elevs = map finite_value es)
  /\ (forall elevs : list (option R),
        fetchElevations gateway pts = Ok elevs ->
        List.length elevs = List.length pts)
  /\ (forall (status : Z) (body : option (list value)),
        gateway pts = Response false status body ->
        fetchElevations gateway pts = Err (ElevationHttpError status)).
Proof.
  split; [| split].
  - intros elevs. split; [apply fetchElevations_ok_inv |].
    intros (status & es & Hg & Hlen & ->).
    unfold fetchElevations. rewrite Hg, Hlen, Nat.eqb_refl. reflexivity.
  - intros elevs H.
    destruct (fetchElevations_ok_inv _ _ _ H) as (status & es & _ & Hlen & ->).
    now rewrite length_map.
  - intros status body Hg. unfold fetchElevations. now rewrite Hg.
Qed.

Lemma fetchElevations_aligned_witness :
  fetchElevations hillGateway (samplePoints brusselsLon brusselsLat)
  = Ok (map Some (200 :: ring8 100 100 100 100 100 100 100 100))
  /\ List.length (map Some (200 :: ring8 100 100 100 100 100 100 100 100))
     = List.length (samplePoints brusselsLon brusselsLat).
Proof.
  assert (H : fetchElevations hillGateway (samplePoints brusselsLon brusselsLat)
              = Ok (map Some (200 :: ring8 100 100 100 100 100 100 100 100)))
    by reflexivity.
  split; [exact H |].
  exact (proj1 (proj2 (fetchElevations_aligned hillGateway
                         (samplePoints brusselsLon brusselsLat))) _ H).
Defined.

Lemma finiteAnswer_inv (es : list value) :
  finiteAnswer es -> exists l : list R, map finite_value es = map Some l.
Proof.
  unfold finiteAnswer. induction 1 as [| v es [e He] _ [l IH]].
  - now exists [].
  - exists (e :: l). simpl. now rewrite He, IH.
Qed.

Lemma finiteAnswer_map_Some (es : list value) (l : list R) :
  map finite_value es = map Some l -> finiteAnswer es.
Proof.
  unfold finiteAnswer. revert l.
  induction es as [| v es IH]; intros [| e l] H; simpl in H; try discriminate.
  - constructor.
  - inversion H as [[Hv Hrest]]. constructor; [now exists e | now apply (IH l)].
Qed.

(** X7.  [computeOrographyFactorComplex] returns a result exactly when the
    service's response is ok and carries nine entries that are all finite
    numbers; the reference height never makes it fail. *)
Theorem compute_succeeds_iff (gateway : list SamplePoint -> reply) (lon lat : R)
    (zRefMeters : number) :
  (exists r, computeOrographyFactorComplex gateway lon lat zRefMeters = Ok r)
  <-> exists (status : Z) (es : list value),
        gateway (samplePoints lon lat) = Response true status (Some es)
        /\ List.length es = 9%nat
        /\ finiteAnswer es.
Proof.
  split.
  - intros [r H].
    destruct (compute_ok_inv _ _ _ _ _ H) as (a & ring & Hlen & Hf & _).
    destruct (fetchElevations_ok_inv _ _ _ Hf) as (status & es & Hg & Hl & He).
    exists status, es. split; [exact Hg |].
    split; [now rewrite Hl, samplePoints_length |].
    apply (finiteAnswer_map_Some es (a :: ring)). now rewrite <- He.
  - intros (status & es & Hg & Hlen & Hfin).
    destruct (finiteAnswer_inv es Hfin) as [l Hl].
    assert (Hll : List.length l = 9%nat).
    { rewrite <- (length_map Some), <- Hl, length_map. exact Hlen. }
    destruct l as [| a ring]; [discriminate |].
    eexists. apply (compute_ok gateway lon lat zRefMeters status es a ring Hg Hl).
    simpl in Hll. lia.
Qed.

Lemma compute_succeeds_iff_witness :
  exists r, computeOrographyFactorComplex hillGateway brusselsLon brusselsLat NaN = Ok r.
Proof.
  apply (proj2 (compute_succeeds_iff hillGateway brusselsLon brusselsLat NaN)).
  exists 200%Z, (map (fun e => VNum (Fin e)) (200 :: ring8 100 100 100 100 100 100 100 100)).
  split; [reflexivity | split; [reflexivity |]].
  unfold finiteAnswer, ring8. repeat constructor; eexists; reflexivity.
Defined.

(** ** The factor as a function of the elevations and the height *)




Lemma attenuation_decreasing (z1 z2 : R) : z1 <= z2 -> attenuation z2 <= attenuation z1.
Proof.
  intros Hz. unfold attenuation, Math_max.
  assert (Hm : Rmax 0 (z1 - 10) <= Rmax 0 (z2 - 10)).
  { apply Rmax_lub; [apply Rmax_l |].
    apply Rle_trans with (z2 - 10); [lra | apply Rmax_r]. }
  destruct Hm as [Hlt | Heq].
  - left. apply exp_increasing. lra.
  - right. now rewrite Heq.
Qed.

Lemma referenceHeight_increasing (h1 h2 : R) :
  h1 <= h2 -> referenceHeight (Fin h1) <= referenceHeight (Fin h2).
Proof.
  intros H. unfold referenceHeight, Math_max. cbn [Number.finite].
  apply Rmax_lub; [apply Rmax_l |].
  apply Rle_trans with h2; [exact H | apply Rmax_r].
Qed.

Lemma floorFactor_increasing (c d : R) : c <= d -> floorFactor c <= floorFactor d.
Proof.
  intros H. rewrite !floorFactor_max.
  apply Rmax_lub; [apply Rmax_l |].
  apply Rle_trans with d; [exact H | apply Rmax_r].
Qed.

Lemma floored_factor_one_iff (a m z : R) : floorFactor (rawFactor a m z) = 1 <-> a <= m.
Proof.
  destruct (attenuation_range z) as [Hpos Hle].
  unfold floorFactor, rawFactor.
  destruct (Rlt_dec (1 + 0.004 * (a - m) * attenuation z) 1) as [Hlt | Hge]; split.
  - intros _. destruct (Rle_dec a m) as [H | H]; [exact H |].
    assert (0 < (a - m) * attenuation z) by (apply Rmult_lt_0_compat; lra). lra.
  - reflexivity.
  - intros H. destruct (Rle_dec a m) as [Ham | Ham]; [exact Ham |].
    assert (0 < (a - m) * attenuation z) by (apply Rmult_lt_0_compat; lra). lra.
  - intros H. assert (0 <= (m - a) * attenuation z) by (apply Rmult_le_pos; lra). lra.
Qed.



(** X9.  When the site elevation of a result is not above its mean
    elevation the returned factor is exactly 1, whatever the reference
    height; a factor above 1 is returned only for a site above the mean. *)
Theorem factor_one_when_site_not_above_mean (gateway : list SamplePoint -> reply)
    (lon lat : R) (zRefMeters : number) (r : OrographyResult) :
  computeOrographyFactorComplex gateway lon lat zRefMeters = Ok r ->
  (Ac r <= Am r -> c0 r = 1)
  /\ (1 < c0 r -> Am r < Ac r).
Proof.
  intros H.
  destruct (compute_ok_inv _ _ _ _ _ H) as (a & ring & _ & _ & ->). cbn [c0 Ac Am].
  pose proof (floored_factor_one_iff a (meanElevation a ring) (referenceHeight zRefMeters))
    as Hone.
  split.
  - apply Hone.
  - intros Hgt. destruct (Rle_dec a (meanElevation a ring)) as [Hle | Hnle]; [| lra].
    apply Hone in Hle. lra.
Qed.

Lemma factor_one_when_site_not_above_mean_witness :
  computeOrographyFactorComplex valleyGateway brusselsLon brusselsLat (Fin 10)
  = Ok {| c0 := floorFactor (rawFactor 100
                               (meanElevation 100 (ring8 200 200 200 200 200 200 200 200))
                               (referenceHeight (Fin 10)));
          Ac := 100;
          Am := meanElevation 100 (ring8 200 200 200 200 200 200 200 200);
          points := samplePoints brusselsLon brusselsLat;
          elevations := Some 100 :: map Some (ring8 200 200 200 200 200 200 200 200) |}
  /\ 100 <= meanElevation 100 (ring8 200 200 200 200 200 200 200 200)
  /\ floorFactor (rawFactor 100
                    (meanElevation 100 (ring8 200 200 200 200 200 200 200 200))
                    (referenceHeight (Fin 10))) = 1.
Proof.
  assert (Hc : computeOrographyFactorComplex valleyGateway brusselsLon brusselsLat (Fin 10)
               = Ok {| c0 := floorFactor (rawFactor 100
                               (meanElevation 100 (ring8 200 200 200 200 200 200 200 200))
                               (referenceHeight (Fin 10)));
                       Ac := 100;
                       Am := meanElevation 100 (ring8 200 200 200 200 200 200 200 200);
                       points := samplePoints brusselsLon brusselsLat;
                       elevations :=
                         Some 100 :: map Some (ring8 200 200 200 200 200 200 200 200) |})
    by reflexivity.
  assert (Hle : 100 <= meanElevation 100 (ring8 200 200 200 200 200 200 200 200))
    by (unfold meanElevation, sumSamples, ring8; simpl; lra).
  split; [exact Hc | split; [exact Hle |]].
  exact (proj1 (factor_one_when_site_not_above_mean valleyGateway brusselsLon brusselsLat
                  (Fin 10) _ Hc) Hle).
Defined.

Lemma map_Some_inj (l l' : list R) : map Some l = map Some l' -> l = l'.
Proof.
  revert l'. induction l as [| e l IH]; intros [| e' l'] H; simpl in H;
    try discriminate; [reflexivity |].
  inversion H. f_equal. now apply IH.
Qed.

(** Two successful computations on the same answer differ only by the
    height that enters the factor. *)
Lemma compute_same_answer (gateway : list SamplePoint -> reply) (lon lat : R)
    (z1 z2 : number) (r1 r2 : OrographyResult) :
  computeOrographyFactorComplex gateway lon lat z1 = Ok r1 ->
  computeOrographyFactorComplex gateway lon lat z2 = Ok r2 ->
  Ac r1 = Ac r2 /\ Am r1 = Am r2
  /\ c0 r1 = floorFactor (rawFactor (Ac r1) (Am r1) (referenceHeight z1))
  /\ c0 r2 = floorFactor (rawFactor (Ac r1) (Am r1) (referenceHeight z2)).
Proof.
  intros H1 H2.
  destruct (compute_ok_inv _ _ _ _ _ H1) as (a & ring & _ & Hf1 & ->).
  destruct (compute_ok_inv _ _ _ _ _ H2) as (a' & ring' & _ & Hf2 & ->).
  rewrite Hf1 in Hf2. inversion Hf2 as [[Ha Hr]]. apply map_Some_inj in Hr. subst.
  cbn [Ac Am c0]. repeat split.
Qed.

(** X10.  On the same answer of the service a greater reference height never
    gives a greater factor: the factor is non-increasing in the height, and
    the site and mean elevations do not depend on it. *)
Theorem factor_decreases_with_height (gateway : list SamplePoint -> reply)
    (lon lat h1 h2 : R) (r1 r2 : OrographyResult) :
  h1 <= h2 ->
  computeOrographyFactorComplex gateway lon lat (Fin h1) = Ok r1 ->
  computeOrographyFactorComplex gateway lon lat (Fin h2) = Ok r2 ->
  c0 r2 <= c0 r1 /\ Ac r1 = Ac r2 /\ Am r1 = Am r2.
Proof.
  intros Hh H1 H2.
  destruct (compute_same_answer _ _ _ _ _ _ _ H1 H2) as (Ha & Hm & -> & ->).
  split; [| split; assumption].
  pose proof (attenuation_decreasing _ _ (referenceHeight_increasing h1 h2 Hh)) as Hat.
  destruct (attenuation_range (referenceHeight (Fin h2))) as [Hpos _].
  destruct (Rle_dec (Ac r1) (Am r1)) as [Hlow | Hhigh].
  - rewrite (proj2 (floored_factor_one_iff (Ac r1) (Am r1) (referenceHeight (Fin h2))) Hlow).
    apply floorFactor_ge_1.
  - apply floorFactor_increasing. unfold rawFactor.
    assert ((Ac r1 - Am r1) * attenuation (referenceHeight (Fin h2))
            <= (Ac r1 - Am r1) * attenuation (referenceHeight (Fin h1)))
      by (apply Rmult_le_compat_l; lra).
    lra.
Qed.

Lemma factor_decreases_with_height_witness :
  10 <= 50
  /\ computeOrographyFactorComplex hillGateway brusselsLon brusselsLat (Fin 10)
     = Ok {| c0 := floorFactor (rawFactor 200
                               (meanElevation 200 (ring8 100 100 100 100 100 100 100 100))
                               (referenceHeight (Fin 10)));
             Ac := 200;
             Am := meanElevation 200 (ring8 100 100 100 100 100 100 100 100);
             points := samplePoints brusselsLon brusselsLat;
             elevations := Some 200 :: map Some (ring8 100 100 100 100 100 100 100 100) |}
  /\ floorFactor (rawFactor 200
                    (meanElevation 200 (ring8 100 100 100 100 100 100 100 100))
                    (referenceHeight (Fin 50)))
     <= floorFactor (rawFactor 200
                       (meanElevation 200 (ring8 100 100 100 100 100 100 100 100))
                       (referenceHeight (Fin 10))).
Proof.
  assert (Hh : 10 <= 50) by lra.
  split; [exact Hh | split; [exact hill_result |]].
  exact (proj1 (factor_decreases_with_height hillGateway brusselsLon brusselsLat 10 50
                  _ _ Hh hill_result eq_refl)).
Defined.

Lemma compute_depends_on_attenuation (gateway : list SamplePoint -> reply)
    (lon lat : R) (z1 z2 : number) :
  attenuation (referenceHeight z1) = attenuation (referenceHeight z2) ->
  computeOrographyFactorComplex gateway lon lat z1
  = computeOrographyFactorComplex gateway lon lat z2.
Proof.
  intros Hz. unfold computeOrographyFactorComplex, rawFactor. cbv zeta. now rewrite Hz.
Qed.

(** X11.  A reference height that is not a finite number (NaN, Infinity,
    -Infinity) is taken as 10 m, and every height of at most 10 m, negative
    ones included, gives the result of 10 m: below 10 m the height has no
    effect. *)
Theorem height_defaults_to_10 (gateway : list SamplePoint -> reply) (lon lat : R) :
  computeOrographyFactorComplex gateway lon lat NaN
  = computeOrographyFactorComplex gateway lon lat (Fin 10)
  /\ computeOrographyFactorComplex gateway lon lat PInf
     = computeOrographyFactorComplex gateway lon lat (Fin 10)
  /\ computeOrographyFactorComplex gateway lon lat NInf
     = computeOrographyFactorComplex gateway lon lat (Fin 10)
  /\ (forall h : R,
        h <= 10 ->
        computeOrographyFactorComplex gateway lon lat (Fin h)
        = computeOrographyFactorComplex gateway lon lat (Fin 10)).
Proof.
  repeat split; try reflexivity.
  intros h Hh. apply compute_depends_on_attenuation.
  rewrite !attenuation_at_most_10; [reflexivity | |];
    unfold referenceHeight, Math_max; cbn [Number.finite]; apply Rmax_lub; lra.
Qed.

Lemma height_defaults_to_10_witness :
  3 <= 10
  /\ computeOrographyFactorComplex hillGateway brusselsLon brusselsLat (Fin 3)
     = computeOrographyFactorComplex hillGateway brusselsLon brusselsLat (Fin 10).
Proof.
  assert (H : 3 <= 10) by lra.
  split; [exact H |].
  exact (proj2 (proj2 (proj2 (height_defaults_to_10 hillGateway brusselsLon brusselsLat)))
           3 H).
Defined.





(** ** What the page shows *)

Lemma toFixed_error (d : nat) (x : R) :
  0 <= x -> Rabs (toFixed d x - x) <= / 2 / 10 ^ d.
Proof.
  intros Hx. pose proof (pow10_pos d) as Hp.
  unfold toFixed. destruct (Rlt_dec x 0) as [Hneg | _]; [lra |]. unfold round_half_up.
  destruct (Int_part_bounds (x * 10 ^ d + / 2)) as [Hlo Hhi].
  set (n := IZR (Int_part (x * 10 ^ d + / 2))) in *.
  replace (n / 10 ^ d - x) with ((n - x * 10 ^ d) / 10 ^ d) by (field; lra).
  unfold Rdiv. rewrite Rabs_mult, (Rabs_pos_eq (/ 10 ^ d))
    by (left; now apply Rinv_0_lt_compat).
  apply Rmult_le_compat_r; [left; now apply Rinv_0_lt_compat |].
  apply Rabs_le. lra.
Qed.

Lemma toFixed3_ge_1 (x : R) : 1 <= x -> 1 <= toFixed 3 x.
Proof.
  intros Hx. unfold toFixed. destruct (Rlt_dec x 0) as [Hneg | _]; [lra |].
  unfold round_half_up.
  destruct (Int_part_bounds (x * 10 ^ 3 + / 2)) as [_ Hhi].
  set (n := Int_part (x * 10 ^ 3 + / 2)) in *.
  assert (Hn : (1000 <= n)%Z).
  { assert (H : IZR 999 < IZR n) by (simpl in Hhi; lra).
    apply lt_IZR in H. lia. }
  apply IZR_le in Hn. simpl. lra.
Qed.

Lemma renderSamples_from (pts : list SamplePoint) (es pre : list (option R)) :
  List.length es = List.length pts ->
  map (fun ip : nat * SamplePoint =>
         match nth_error (pre ++ es) (fst ip) with
         | Some (Some e) => Some (toFixed 1 e)
         | _ => None
         end)
      (combine (seq (List.length pre) (List.length pts)) pts)
  = map (option_map (toFixed 1)) es.
Proof.
  revert es pre. induction pts as [| p pts IH]; intros [| e es] pre Hlen;
    simpl in Hlen; try discriminate; [reflexivity |].
  cbn [List.length seq combine map fst]. f_equal.
  - rewrite nth_error_app2 by lia. rewrite Nat.sub_diag. now destruct e.
  - specialize (IH es (pre ++ [e])).
    rewrite <- app_assoc, length_app in IH. cbn [app List.length] in IH.
    rewrite Nat.add_1_r in IH. apply IH. lia.
Qed.

Lemma renderSamples_length (pts : list SamplePoint) (es : list (option R)) :
  List.length (renderSamples pts es) = List.length pts.
Proof.
  unfold renderSamples. now rewrite length_map, length_combine, length_seq, Nat.min_id.
Qed.

(** X19.  The samples table has one row per point, whatever the elevations,
    with the points' labels in order; when there are as many elevations as
    points, the elevation column is the list of elevations in order, each
    printed with one decimal, and a dash where the entry is no number. *)
Theorem renderSamples_aligned (pts : list SamplePoint) (es : list (option R)) :
  List.length (renderSamples pts es) = List.length pts
  /\ map row_label (renderSamples pts es) = map label pts
  /\ (List.length es = List.length pts ->
      map row_elevation (renderSamples pts es) = map (option_map (toFixed 1)) es).
Proof.
  split; [apply renderSamples_length | split].
  - unfold renderSamples. rewrite map_map.
    assert (H : forall s : nat,
               map (fun x : nat * SamplePoint => label (snd x))
                   (combine (seq s (List.length pts)) pts) = map label pts).
    { induction pts as [| p pts IH]; intros s; [reflexivity |].
      cbn [List.length seq combine map snd]. f_equal. apply IH. }
    rewrite <- (H 0%nat). apply map_ext. now intros [idx p].
  - intros Hlen. unfold renderSamples. rewrite map_map.
    rewrite <- (renderSamples_from pts es [] Hlen).
    apply map_ext. now intros [idx p].
Qed.

Lemma renderSamples_aligned_witness :
  List.length [Some 200; None] = List.length (firstn 2 (samplePoints brusselsLon brusselsLat))
  /\ map row_elevation
       (renderSamples (firstn 2 (samplePoints brusselsLon brusselsLat)) [Some 200; None])
     = map (option_map (toFixed 1)) [Some 200; None].
Proof.
  split; [reflexivity |].
  exact (proj2 (proj2 (renderSamples_aligned
                         (firstn 2 (samplePoints brusselsLon brusselsLat))
                         [Some 200; None])) eq_refl).
Defined.

Section PageFacts.

Variable gateway : list SamplePoint -> reply.
Variable geocodeAddress : string -> string -> result GeocodeHit.
Variable proj4_to_lambert : crs -> R * R -> R * R.
Variable proj4_to_wgs84 : crs -> R * R -> R * R.

(** The table of a run: the rows of the result, or none when it throws. *)
Lemma run_samples (f : Form) (page : Page) :
  match snd (run gateway geocodeAddress proj4_to_lambert proj4_to_wgs84 f page) with
  | Ok _ =>
      List.length (samplesTbody
                     (fst (run gateway geocodeAddress proj4_to_lambert proj4_to_wgs84
                             f page))) = 9%nat
  | Err _ =>
      samplesTbody (fst (run gateway geocodeAddress proj4_to_lambert proj4_to_wgs84
                           f page)) = []
  end.
Proof.
  unfold run.
  destruct (toNumber (zRefEl f)) as [zRef |]; [| reflexivity].
  destruct (Rlt_dec zRef 0); [reflexivity |].
  destruct (resolveInput geocodeAddress proj4_to_wgs84 f) as [[[lon lat] l] |];
    [| reflexivity].
  destruct (wgs84ToLambert proj4_to_lambert lon lat (lambertDisplayCrs f))
    as [[lamX lamY] lamCrs].
  destruct (computeOrographyFactorComplex gateway lon lat (Fin zRef)) as [r |] eqn:Hc;
    [| reflexivity].
  cbn [snd fst samplesTbody setStatus setWarning setSamples].
  destruct (compute_ok_inv _ _ _ _ _ Hc) as (a & ring & _ & _ & ->). cbn [points elevations].
  now rewrite renderSamples_length, samplePoints_length.
Qed.

(** The coordinate lines a run writes once the height and the input are
    accepted, whatever the elevation request then does. *)
Lemma submit_coords (f : Form) (page : Page) (lon lat zRef : R) (l : place_label) :
  toNumber (zRefEl f) = Some zRef -> 0 <= zRef ->
  resolveInput geocodeAddress proj4_to_wgs84 f = Ok (lon, lat, l) ->
  coordsLines (submit gateway geocodeAddress proj4_to_lambert proj4_to_wgs84 f page)
  = Some {| shown_lon := toFixed 6 lon; shown_lat := toFixed 6 lat;
            shown_label := l; shown_crs := lambertDisplayCrs f;
            shown_X := toFixed 3 (fst (proj4_to_lambert (lambertDisplayCrs f) (lon, lat)));
            shown_Y := toFixed 3 (snd (proj4_to_lambert (lambertDisplayCrs f) (lon, lat))) |}.
Proof.
  intros Hz Hpos Hres. unfold submit, run. rewrite Hz.
  destruct (Rlt_dec zRef 0); [lra |]. rewrite Hres. unfold wgs84ToLambert.
  destruct (proj4_to_lambert (lambertDisplayCrs f) (lon, lat)) as [x y].
  destruct (computeOrographyFactorComplex gateway lon lat (Fin zRef)); reflexivity.
Qed.

End PageFacts.

(** X14.  After a run that does not throw, the factor printed on the page is
    at least 1 and within 0.0005 of the computed factor, and the printed site
    and mean elevations are within 0.05 m of the computed ones when those are
    not negative. *)
Theorem printed_results_close
    (gateway : list SamplePoint -> reply)
    (geocodeAddress : string -> string -> result GeocodeHit)
    (proj4_to_lambert proj4_to_wgs84 : crs -> R * R -> R * R)
    (f : Form) (page : Page) :
  let after := run gateway geocodeAddress proj4_to_lambert proj4_to_wgs84 f page in
  snd after = Ok tt ->
  exists (lon lat zRef : R) (r : OrographyResult) (shown shownAc shownAm : R),
    computeOrographyFactorComplex gateway lon lat (Fin zRef) = Ok r
    /\ orographyFactorEl (fst after) = Some shown
    /\ 1 <= shown
    /\ Rabs (shown - c0 r) <= 0.0005
    /\ AcEl (fst after) = Some shownAc
    /\ (0 <= Ac r -> Rabs (shownAc - Ac r) <= 0.05)
    /\ AmEl (fst after) = Some shownAm
    /\ (0 <= Am r -> Rabs (shownAm - Am r) <= 0.05).
Proof.
  intros after Hok.
  destruct (run_ok_inv _ _ _ _ _ _ Hok)
    as (lon & lat & zRef & l & r & _ & _ & _ & Hc & Hshown & HAc & HAm & _).
  destruct (computed_c0_floored _ _ _ _ _ Hc) as [_ Hge].
  exists lon, lat, zRef, r, (toFixed 3 (c0 r)), (toFixed 1 (Ac r)), (toFixed 1 (Am r)).
  split; [exact Hc |]. split; [exact Hshown |].
  split; [now apply toFixed3_ge_1 |].
  split; [pose proof (toFixed_error 3 (c0 r)) as H; simpl in H; lra |].
  split; [exact HAc |].
  split; [intros H0; pose proof (toFixed_error 1 (Ac r) H0) as H; simpl in H; lra |].
  split; [exact HAm |].
  intros H0. pose proof (toFixed_error 1 (Am r) H0) as H. simpl in H. lra.
Qed.

Lemma hill_run_ok :
  snd (run hillGateway noGeocoder noProjection noProjection
         (lonlatForm (Fin brusselsLon) (Fin brusselsLat) (Fin 10)) blankPage) = Ok tt.
Proof.
  destruct brussels_valid as [Hlon Hlat].
  assert (Hz : 0 <= 10) by lra.
  exact (proj1 (run_lonlat_ok hillGateway noGeocoder noProjection noProjection
                  brusselsLon brusselsLat 10 _ blankPage Hlon Hlat Hz hill_result)).
Qed.

Lemma printed_results_close_witness :
  snd (run hillGateway noGeocoder noProjection noProjection
         (lonlatForm (Fin brusselsLon) (Fin brusselsLat) (Fin 10)) blankPage) = Ok tt
  /\ exists (lon lat zRef : R) (r : OrographyResult) (shown shownAc shownAm : R),
       computeOrographyFactorComplex hillGateway lon lat (Fin zRef) = Ok r
       /\ orographyFactorEl
            (fst (run hillGateway noGeocoder noProjection noProjection
                    (lonlatForm (Fin brusselsLon) (Fin brusselsLat) (Fin 10)) blankPage))
          = Some shown
       /\ 1 <= shown
       /\ Rabs (shown - c0 r) <= 0.0005
       /\ AcEl
            (fst (run hillGateway noGeocoder noProjection noProjection
                    (lonlatForm (Fin brusselsLon) (Fin brusselsLat) (Fin 10)) blankPage))
          = Some shownAc
       /\ (0 <= Ac r -> Rabs (shownAc - Ac r) <= 0.05)
       /\ AmEl
            (fst (run hillGateway noGeocoder noProjection noProjection
                    (lonlatForm (Fin brusselsLon) (Fin brusselsLat) (Fin 10)) blankPage))
          = Some shownAm
       /\ (0 <= Am r -> Rabs (shownAm - Am r) <= 0.05).
Proof.
  split; [exact hill_run_ok |].
  exact (printed_results_close hillGateway noGeocoder noProjection noProjection
           (lonlatForm (Fin brusselsLon) (Fin brusselsLat) (Fin 10)) blankPage hill_run_ok).
Defined.

(** X15.  A submit never leaves results of an earlier run on the page.
    Whatever the page showed before, afterwards it shows either the status
    Done with a factor of at least 1, a site and a mean elevation and nine
    table rows, or an error status with the factor, the site elevation and
    the mean elevation cleared, the warning hidden and the table empty. *)
Theorem submit_leaves_no_stale_results
    (gateway : list SamplePoint -> reply)
    (geocodeAddress : string -> string -> result GeocodeHit)
    (proj4_to_lambert proj4_to_wgs84 : crs -> R * R -> R * R)
    (f : Form) (page : Page) :
  let after := submit gateway geocodeAddress proj4_to_lambert proj4_to_wgs84 f page in
  (statusEl after = StatusDone
   /\ (exists shown shownAc shownAm : R,
         orographyFactorEl after = Some shown /\ 1 <= shown
         /\ AcEl after = Some shownAc /\ AmEl after = Some shownAm)
   /\ List.length (samplesTbody after) = 9%nat)
  \/ (exists e : error,
        statusEl after = StatusError e
        /\ orographyFactorEl after = None
        /\ AcEl after = None
        /\ AmEl after = None
        /\ warningEl after = false
        /\ samplesTbody after = []).
Proof.
  intros after. subst after.
  pose proof (run_samples gateway geocodeAddress proj4_to_lambert proj4_to_wgs84
                f (clearOutputs page)) as Hrows.
  destruct (snd (run gateway geocodeAddress proj4_to_lambert proj4_to_wgs84
                   f (clearOutputs page))) as [[] | e] eqn:Hrun.
  - left.
    destruct (run_ok_inv _ _ _ _ _ _ Hrun)
      as (lon & lat & zRef & l & r & _ & _ & _ & Hc & Hshown & HAc & HAm & _ & Hst).
    destruct (computed_c0_floored _ _ _ _ _ Hc) as [_ Hge].
    unfold submit.
    destruct (run gateway geocodeAddress proj4_to_lambert proj4_to_wgs84
                f (clearOutputs page)) as [p outcome].
    cbn [fst snd] in *. subst outcome.
    split; [exact Hst |].
    split; [| exact Hrows].
    exists (toFixed 3 (c0 r)), (toFixed 1 (Ac r)), (toFixed 1 (Am r)).
    repeat split; try assumption. now apply toFixed3_ge_1.
  - right. exists e.
    destruct (submit_err gateway geocodeAddress proj4_to_lambert proj4_to_wgs84
                f page e Hrun) as (H1 & H2 & H3 & H4 & H5).
    repeat split; try assumption.
    unfold submit.
    destruct (run gateway geocodeAddress proj4_to_lambert proj4_to_wgs84
                f (clearOutputs page)) as [p outcome].
    cbn [fst snd] in *. subst outcome. exact Hrows.
Qed.

(** X16.  When the height and the input are accepted but the elevation
    request or the computation fails, the page keeps showing the resolved
    coordinates, printed with six decimals, beside the error. *)
Theorem coordinates_shown_despite_failure
    (gateway : list SamplePoint -> reply)
    (geocodeAddress : string -> string -> result GeocodeHit)
    (proj4_to_lambert proj4_to_wgs84 : crs -> R * R -> R * R)
    (f : Form) (page : Page) (lon lat zRef : R) (l : place_label) (e : error) :
  toNumber (zRefEl f) = Some zRef -> 0 <= zRef ->
  resolveInput geocodeAddress proj4_to_wgs84 f = Ok (lon, lat, l) ->
  computeOrographyFactorComplex gateway lon lat (Fin zRef) = Err e ->
  let after := submit gateway geocodeAddress proj4_to_lambert proj4_to_wgs84 f page in
  statusEl after = StatusError e
  /\ orographyFactorEl after = None
  /\ exists c : CoordinateLines,
       coordsLines after = Some c
       /\ shown_lon c = toFixed 6 lon /\ shown_lat c = toFixed 6 lat
       /\ shown_label c = l.
Proof.
  intros Hz Hpos Hres Hc after. subst after.
  pose proof (run_compute_err gateway geocodeAddress proj4_to_lambert proj4_to_wgs84
                f (clearOutputs page) lon lat zRef l e Hz Hpos Hres Hc) as Hrun.
  destruct (submit_err gateway geocodeAddress proj4_to_lambert proj4_to_wgs84
              f page e Hrun) as (H1 & H2 & _).
  split; [exact H1 | split; [exact H2 |]].
  eexists. split.
  - apply (submit_coords gateway geocodeAddress proj4_to_lambert proj4_to_wgs84
             f page lon lat zRef l Hz Hpos Hres).
  - repeat split.
Qed.

Lemma coordinates_shown_despite_failure_witness :
  computeOrographyFactorComplex deadGateway brusselsLon brusselsLat (Fin 10)
  = Err ElevationRequestRejected
  /\ statusEl (submit deadGateway noGeocoder noProjection noProjection
                 (lonlatForm (Fin brusselsLon) (Fin brusselsLat) (Fin 10)) stalePage)
     = StatusError ElevationRequestRejected
  /\ orographyFactorEl
       (submit deadGateway noGeocoder noProjection noProjection
          (lonlatForm (Fin brusselsLon) (Fin brusselsLat) (Fin 10)) stalePage) = None.
Proof.
  destruct brussels_valid as [Hlon Hlat].
  assert (Hz : 0 <= 10) by lra.
  assert (Hc : computeOrographyFactorComplex deadGateway brusselsLon brusselsLat (Fin 10)
               = Err ElevationRequestRejected) by reflexivity.
  split; [exact Hc |].
  destruct (coordinates_shown_despite_failure deadGateway noGeocoder noProjection
              noProjection (lonlatForm (Fin brusselsLon) (Fin brusselsLat) (Fin 10))
              stalePage brusselsLon brusselsLat 10 NoLabel ElevationRequestRejected
              eq_refl Hz
              (resolve_lonlat noGeocoder noProjection brusselsLon brusselsLat (Fin 10)
                 Hlon Hlat)
              Hc) as (H1 & H2 & _).
  split; [exact H1 | exact H2].
Defined.

(** X17.  In longitude/latitude mode, with an accepted height, coordinates
    that [validateLonLat] refuses stop the run with that error before any
    coordinate is shown and whatever the elevation service would answer. *)
Theorem lonlat_rejected_before_display
    (gateway : list SamplePoint -> reply)
    (geocodeAddress : string -> string -> result GeocodeHit)
    (proj4_to_lambert proj4_to_wgs84 : crs -> R * R -> R * R)
    (f : Form) (page : Page) (zRef : R) (err : coordinate_error) :
  inputType f = ModeLonLat ->
  toNumber (zRefEl f) = Some zRef -> 0 <= zRef ->
  validateLonLat (toNumber (lonEl f)) (toNumber (latEl f)) = Some err ->
  let after := submit gateway geocodeAddress proj4_to_lambert proj4_to_wgs84 f page in
  statusEl after = StatusError (LonLatError err)
  /\ coordsLines after = None
  /\ orographyFactorEl after = None
  /\ samplesTbody after = [].
Proof.
  intros Hmode Hz Hpos Hv after. subst after.
  unfold submit, run. rewrite Hz. destruct (Rlt_dec zRef 0); [lra |].
  unfold resolveInput. rewrite Hmode, Hv. repeat split.
Qed.

Lemma lonlat_rejected_before_display_witness :
  validateLonLat (toNumber (Fin 4)) (toNumber (Fin 95)) = Some LatitudeRange
  /\ statusEl (submit hillGateway noGeocoder noProjection noProjection
                 (lonlatForm (Fin 4) (Fin 95) (Fin 10)) stalePage)
     = StatusError (LonLatError LatitudeRange).
Proof.
  assert (Hz : 0 <= 10) by lra.
  assert (Hv : validateLonLat (toNumber (Fin 4)) (toNumber (Fin 95)) = Some LatitudeRange).
  { cbn [toNumber Number.finite validateLonLat].
    destruct (Rlt_dec 95 (-90)); [reflexivity |].
    destruct (Rlt_dec 90 95); [reflexivity | lra]. }
  split; [exact Hv |].
  exact (proj1 (lonlat_rejected_before_display hillGateway noGeocoder noProjection
                  noProjection (lonlatForm (Fin 4) (Fin 95) (Fin 10)) stalePage 10
                  LatitudeRange eq_refl eq_refl Hz Hv)).
Defined.

(** ** Lambert and address input *)

(** X18.  In Lambert mode the system used for the conversion is the one
    selected, or with the choice auto the one the northing heuristic picks;
    the label names that system.  The planar coordinates shown under the
    input are in the selected system, and with the choice auto always in
    Lambert 72: for a northing of at most 2,000,000 the input is then read as
    Lambert 2008 while the line shown is in Lambert 72. *)
Theorem lambert_mode_systems
    (gateway : list SamplePoint -> reply)
    (geocodeAddress : string -> string -> result GeocodeHit)
    (proj4_to_lambert proj4_to_wgs84 : crs -> R * R -> R * R)
    (x y zRef wlon wlat : R) (choice : option crs) (page : Page) :
  0 <= zRef ->
  let used := match choice with
              | Some c => c
              | None => detectLambertCrs (Some y)
              end in
  proj4_to_wgs84 used (x, y) = (wlon, wlat) ->
  validateLonLat (Some wlon) (Some wlat) = None ->
  let after := submit gateway geocodeAddress proj4_to_lambert proj4_to_wgs84
                 (lambertForm (Fin x) (Fin y) choice (Fin zRef)) page in
  exists c : CoordinateLines,
    coordsLines after = Some c
    /\ shown_lon c = toFixed 6 wlon /\ shown_lat c = toFixed 6 wlat
    /\ shown_label c = FromCrs used
    /\ shown_crs c = match choice with Some s => s | None => EPSG31370 end
    /\ (choice = None -> y <= 2000000 ->
        shown_label c = FromCrs EPSG3812 /\ shown_crs c = EPSG31370).
Proof.
  intros Hz used Hconv Hvalid after. subst after.
  assert (Hres : resolveInput geocodeAddress proj4_to_wgs84
                   (lambertForm (Fin x) (Fin y) choice (Fin zRef))
                 = Ok (wlon, wlat, FromCrs used)).
  { unfold resolveInput, lambertToWgs84.
    cbn [inputType lambertForm eastingEl northingEl lambertCrsEl toNumber Number.finite].
    fold used. rewrite Hconv, Hvalid. reflexivity. }
  eexists. split.
  - apply (submit_coords gateway geocodeAddress proj4_to_lambert proj4_to_wgs84
             (lambertForm (Fin x) (Fin y) choice (Fin zRef)) page wlon wlat zRef
             (FromCrs used) eq_refl Hz Hres).
  - cbn [shown_lon shown_lat shown_label shown_crs].
    split; [reflexivity | split; [reflexivity | split; [reflexivity |]]].
    split.
    + unfold lambertDisplayCrs. cbn [inputType lambertForm lambertCrsEl].
      now destruct choice.
    + intros -> Hy. subst used. unfold detectLambertCrs.
      destruct (Rlt_dec 2000000 y); [lra |]. split; reflexivity.
Qed.

Lemma lambert_mode_systems_witness :
  0 <= 10
  /\ brusselsProjection (detectLambertCrs (Some 665262)) (649328, 665262)
     = (brusselsLon, brusselsLat)
  /\ validateLonLat (Some brusselsLon) (Some brusselsLat) = None
  /\ exists c : CoordinateLines,
       coordsLines (submit hillGateway noGeocoder noProjection brusselsProjection
                      (lambertForm (Fin 649328) (Fin 665262) None (Fin 10)) blankPage)
       = Some c
       /\ shown_label c = FromCrs EPSG3812 /\ shown_crs c = EPSG31370.
Proof.
  destruct brussels_valid as [Hlon Hlat].
  assert (Hz : 0 <= 10) by lra.
  pose proof (validateLonLat_valid brusselsLon brusselsLat Hlon Hlat) as Hv.
  split; [exact Hz | split; [reflexivity | split; [exact Hv |]]].
  destruct (lambert_mode_systems hillGateway noGeocoder noProjection brusselsProjection
              649328 665262 10 brusselsLon brusselsLat None blankPage Hz eq_refl Hv)
    as (c & Hc & _ & _ & _ & _ & Hauto).
  exists c. split; [exact Hc |]. apply Hauto; [reflexivity | lra].
Defined.

(** X20.  In Lambert mode, with an accepted height, an easting or northing
    that is no finite number stops the run before any conversion, and a
    conversion whose result [validateLonLat] refuses stops it with that
    refusal; in both cases no coordinate is shown and no elevation is
    requested. *)
Theorem lambert_mode_rejections
    (gateway : list SamplePoint -> reply)
    (geocodeAddress : string -> string -> result GeocodeHit)
    (proj4_to_lambert proj4_to_wgs84 : crs -> R * R -> R * R)
    (easting northing : number) (choice : option crs) (zRef : R) (page : Page) :
  0 <= zRef ->
  let after := submit gateway geocodeAddress proj4_to_lambert proj4_to_wgs84
                 (lambertForm easting northing choice (Fin zRef)) page in
  ((toNumber easting = None \/ toNumber northing = None) ->
   statusEl after = StatusError LambertNumbersError /\ coordsLines after = None)
  /\ (forall (x y : R) (err : coordinate_error),
        easting = Fin x -> northing = Fin y ->
        (let used := match choice with
                     | Some c => c
                     | None => detectLambertCrs (Some y)
                     end in
         validateLonLat (Some (fst (proj4_to_wgs84 used (x, y))))
           (Some (snd (proj4_to_wgs84 used (x, y)))) = Some err) ->
        statusEl after = StatusError (LambertConversionError err)
        /\ coordsLines after = None).
Proof.
  intros Hz after. subst after. split.
  - intros Hbad. unfold submit, run.
    cbn [zRefEl lambertForm toNumber Number.finite].
    destruct (Rlt_dec zRef 0); [lra |].
    unfold resolveInput. cbn [inputType lambertForm eastingEl northingEl].
    destruct Hbad as [He | Hn].
    + rewrite He. split; reflexivity.
    + rewrite Hn. destruct (toNumber easting); split; reflexivity.
  - intros x y err -> -> Hv. cbv zeta in Hv. unfold submit, run.
    cbn [zRefEl lambertForm toNumber Number.finite].
    destruct (Rlt_dec zRef 0); [lra |].
    unfold resolveInput, lambertToWgs84.
    cbn [inputType lambertForm eastingEl northingEl lambertCrsEl toNumber Number.finite].
    destruct (proj4_to_wgs84 _ (x, y)) as [wlon wlat]. cbn [fst snd] in Hv.
    rewrite Hv. split; reflexivity.
Qed.

Lemma lambert_mode_rejections_witness :
  0 <= 10
  /\ toNumber NaN = None
  /\ statusEl (submit hillGateway noGeocoder noProjection brusselsProjection
                 (lambertForm NaN (Fin 665262) None (Fin 10)) stalePage)
     = StatusError LambertNumbersError.
Proof.
  assert (Hz : 0 <= 10) by lra.
  split; [exact Hz | split; [reflexivity |]].
  exact (proj1 (proj1 (lambert_mode_rejections hillGateway noGeocoder noProjection
                         brusselsProjection NaN (Fin 665262) None 10 stalePage Hz)
                  (or_introl eq_refl))).
Defined.

(** X21.  [geocodeAddress] returns a place exactly when the trimmed address
    is not empty and the service, asked for that name (with the trimmed,
    upper-cased country code when it is not empty, and without one
    otherwise), answers ok with at least one result; the place is then the
    first result.  A blank address is refused without asking the service. *)
Theorem geocodeAddress_succeeds_iff
    (trim toUpperCase : string -> string)
    (geocoder : string -> option string -> geocode_reply)
    (address countryCode : string) (hit : GeocodeHit) :
  let cc := toUpperCase (trim countryCode) in
  (geocodeAddress trim toUpperCase geocoder address countryCode = Ok hit
   <-> trim address <> ""%string
       /\ exists (status : Z) (r : GeocodeResult) (rest : list GeocodeResult),
            geocoder (trim address) (if nonempty cc then Some cc else None)
            = GeocodeResponse true status (Some (r :: rest))
            /\ hit = {| hit_lat := res_latitude r; hit_lon := res_longitude r;
                        hit_label := geocodeLabel r |})
  /\ (trim address = ""%string ->
      geocodeAddress trim toUpperCase geocoder address countryCode
      = Err (GeocodeError "Please enter an address.")).
Proof.
  intros cc. unfold geocodeAddress. fold cc.
  destruct (nonempty (trim address)) eqn:Hn; unfold nonempty in Hn; cbn [negb].
  - apply negb_true_iff, String.eqb_neq in Hn.
    split; [| contradiction]. split.
    + intros H. split; [exact Hn |].
      destruct (geocoder (trim address) (if nonempty cc then Some cc else None))
        as [message | ok status [[| r rest] |]]; try destruct ok; try discriminate.
      exists status, r, rest. split; [reflexivity |]. now inversion H.
    + intros (_ & status & r & rest & -> & ->). reflexivity.
  - apply negb_false_iff, String.eqb_eq in Hn.
    split; [| reflexivity]. split; [discriminate | now intros [H _]].
Qed.

(** X22.  In address mode a blank address stops the run with the geocoding
    error: no coordinate is shown and neither the geocoding service nor the
    elevation service decides the outcome. *)
Theorem blank_address_rejected
    (trim toUpperCase : string -> string)
    (geocoder : string -> option string -> geocode_reply)
    (gateway : list SamplePoint -> reply)
    (proj4_to_lambert proj4_to_wgs84 : crs -> R * R -> R * R)
    (address countryCode : string) (zRef : R) (page : Page) :
  trim address = ""%string -> 0 <= zRef ->
  let after := submit gateway (geocodeAddress trim toUpperCase geocoder)
                 proj4_to_lambert proj4_to_wgs84
                 (addressForm address countryCode (Fin zRef)) page in
  statusEl after = StatusError (GeocodeError "Please enter an address.")
  /\ coordsLines after = None
  /\ orographyFactorEl after = None.
Proof.
  intros Hblank Hz after. subst after. unfold submit, run.
  cbn [zRefEl addressForm toNumber Number.finite].
  destruct (Rlt_dec zRef 0); [lra |].
  unfold resolveInput. cbn [inputType addressForm addressEl countryCodeEl].
  unfold geocodeAddress. rewrite Hblank. cbn [nonempty String.eqb negb]. repeat split.
Qed.

Lemma blank_address_rejected_witness :
  (fun s : string => s) ""%string = ""%string /\ 0 <= 10
  /\ statusEl (submit hillGateway
                 (geocodeAddress (fun s => s) (fun s => s) emptyGeocoder)
                 noProjection noProjection (addressForm "" "BE" (Fin 10)) stalePage)
     = StatusError (GeocodeError "Please enter an address.").
Proof.
  assert (Hz : 0 <= 10) by lra.
  split; [reflexivity | split; [exact Hz |]].
  exact (proj1 (blank_address_rejected (fun s => s) (fun s => s) emptyGeocoder hillGateway
                  noProjection noProjection "" "BE" 10 stalePage eq_refl Hz)).
Defined.

Lemma geocodeAddress_succeeds_iff_witness :
  geocodeAddress (fun s => s) (fun s => s) emptyGeocoder "" "BE"
  = Err (GeocodeError "Please enter an address.").
Proof.
  exact (proj2 (geocodeAddress_succeeds_iff (fun s => s) (fun s => s) emptyGeocoder "" "BE"
                  {| hit_lat := 0; hit_lon := 0; hit_label := "" |}) eq_refl).
Defined.

(** ** The legacy script *)

Lemma legacyComment_nonempty (a : Spec.advisory) : legacyComment a <> ""%string.
Proof. destruct a; discriminate. Qed.

(** The legacy factor is a finite number for every tower height. *)
Lemma legacy_factor_finite (DeltaAc : R) (towerHeight : number) :
  exists f : R, Legacy.factor DeltaAc towerHeight = Fin f.
Proof.
  unfold Legacy.factor. destruct towerHeight as [| | | h]; cbn [Number.gt].
  - eexists; reflexivity.
  - cbn [Number.sub Number.neg Number.add Number.mul]. unfold Number.scale_inf.
    destruct (Rlt_dec 0 (-0.014)); [lra |].
    destruct (Rlt_dec (-0.014) 0); [| lra].
    eexists; reflexivity.
  - eexists; reflexivity.
  - destruct (Rlt_dec 10 h); eexists; reflexivity.
Qed.

Lemma legacy_factor_PInf (DeltaAc : R) : Legacy.factor DeltaAc PInf = Fin 1.
Proof.
  unfold Legacy.factor.
  cbn [Number.gt Number.sub Number.neg Number.add Number.mul]. unfold Number.scale_inf.
  destruct (Rlt_dec 0 (-0.014)); [lra |].
  destruct (Rlt_dec (-0.014) 0); [| lra].
  cbn [Number.exp Number.mul Number.add]. f_equal. ring.
Qed.

(** What the legacy function writes for nine finite elevations and any tower
    height. *)
Lemma legacy_writes_any_height (a n05 n1 e05 e1 s05 s1 w05 w1 : R) (height : number) :
  let DeltaAc := a - Spec.Am a (ring8 n05 n1 e05 e1 s05 s1 w05 w1) in
  Legacy.calculateTotalElevation (legacyFields a n05 n1 e05 e1 s05 s1 w05 w1 height)
  = Some {| Legacy.orography_factor_comment :=
              Legacy.comment (Legacy.roundUp (Legacy.factor DeltaAc height));
            Legacy.orography_factor :=
              Legacy.toFixed2 (Legacy.roundUp (Legacy.factor DeltaAc height)) |}.
Proof.
  intros DeltaAc. unfold Legacy.calculateTotalElevation, legacyFields.
  cbn [Number.finite
         Legacy.elevation Legacy.elevation_north_05km Legacy.elevation_north_1km
         Legacy.elevation_south_05km Legacy.elevation_south_1km
         Legacy.elevation_east_05km Legacy.elevation_east_1km
         Legacy.elevation_west_05km Legacy.elevation_west_1km Legacy.height].
  now rewrite legacy_meanElevation_spec.
Qed.

(** X23.  [calculateTotalElevation] writes a comment and a factor exactly
    when the nine elevation elements all hold finite numbers; what the height
    field holds never keeps it from writing. *)
Theorem legacy_writes_iff_all_finite (d : Legacy.Fields) :
  (exists w, Legacy.calculateTotalElevation d = Some w)
  <-> Forall (fun n : number => exists e : R, n = Fin e)
        [Legacy.elevation d;
         Legacy.elevation_north_05km d; Legacy.elevation_north_1km d;
         Legacy.elevation_south_05km d; Legacy.elevation_south_1km d;
         Legacy.elevation_east_05km d; Legacy.elevation_east_1km d;
         Legacy.elevation_west_05km d; Legacy.elevation_west_1km d].
Proof.
  unfold Legacy.calculateTotalElevation. split.
  - intros [w H].
    destruct (Legacy.elevation d) as [| | | e0]; try discriminate.
    destruct (Legacy.elevation_north_05km d) as [| | | e1]; try discriminate.
    destruct (Legacy.elevation_north_1km d) as [| | | e2]; try discriminate.
    destruct (Legacy.elevation_south_05km d) as [| | | e3]; try discriminate.
    destruct (Legacy.elevation_south_1km d) as [| | | e4]; try discriminate.
    destruct (Legacy.elevation_east_05km d) as [| | | e5]; try discriminate.
    destruct (Legacy.elevation_east_1km d) as [| | | e6]; try discriminate.
    destruct (Legacy.elevation_west_05km d) as [| | | e7]; try discriminate.
    destruct (Legacy.elevation_west_1km d) as [| | | e8]; try discriminate.
    repeat constructor; eexists; reflexivity.
  - intros H.
    repeat match goal with
           | H : Forall _ (_ :: _) |- _ =>
               let e := fresh "e" in
               let He := fresh "He" in
               inversion H as [| ? ? [e He] ?]; subst; clear H; rewrite He
           end.
    cbn [Number.finite]. eexists; reflexivity.
Qed.

(** X24.  For nine finite elevations and every tower height, NaN and the
    infinities included, the legacy script writes a finite factor and one of
    its three comments: the branch that writes an empty comment is never
    taken.  With the height +Infinity the factor written is 1. *)
Theorem legacy_always_classifies (a n05 n1 e05 e1 s05 s1 w05 w1 : R) (height : number) :
  (exists (f : R) (c : Spec.advisory),
      Legacy.calculateTotalElevation (legacyFields a n05 n1 e05 e1 s05 s1 w05 w1 height)
      = Some {| Legacy.orography_factor_comment := legacyComment c;
                Legacy.orography_factor := Fin f |}
      /\ legacyComment c <> ""%string)
  /\ Legacy.calculateTotalElevation (legacyFields a n05 n1 e05 e1 s05 s1 w05 w1 PInf)
     = Some {| Legacy.orography_factor_comment := legacyComment Spec.FLAT;
               Legacy.orography_factor := Fin 1 |}.
Proof.
  split.
  - rewrite legacy_writes_any_height. cbv zeta.
    destruct (legacy_factor_finite
                (a - Spec.Am a (ring8 n05 n1 e05 e1 s05 s1 w05 w1)) height) as [f ->].
    rewrite toFixed2_roundUp, roundUp_Fin, legacy_comment_classify.
    eexists. eexists. split; [reflexivity | apply legacyComment_nonempty].
  - rewrite legacy_writes_any_height. cbv zeta.
    rewrite legacy_factor_PInf, toFixed2_roundUp, roundUp_Fin, legacy_comment_classify.
    rewrite (Rceil_between (1 * 100) 100) by lra.
    replace (100 / 100) with 1 by lra.
    now rewrite (proj2 (classify_flat_iff 1)) by lra.
Qed.

(** ** The legacy input handlers *)



(** X28.  The legacy Lambert input never checks the converted coordinates:
    for every finite easting and northing it sets off the nine requests at
    whatever the conversion returns, where the current script, for a result
    that [validateLonLat] refuses, throws and requests nothing. *)
Theorem legacy_lambert_unvalidated
    (geocodeAddress : string -> string -> result GeocodeHit)
    (proj4_to_wgs84 : crs -> R * R -> R * R)
    (c : crs) (x y : R) (zRef : number) (err : coordinate_error) :
  validateLonLat (Some (fst (proj4_to_wgs84 c (x, y))))
    (Some (snd (proj4_to_wgs84 c (x, y)))) = Some err ->
  LegacyInput.calculateFromLambert proj4_to_wgs84 c (Fin x) (Fin y)
  = LegacyInput.Requests
      (Legacy.requests (snd (proj4_to_wgs84 c (x, y))) (fst (proj4_to_wgs84 c (x, y))))
  /\ resolveInput geocodeAddress proj4_to_wgs84 (lambertForm (Fin x) (Fin y) (Some c) zRef)
     = Err (LambertConversionError err).
Proof.
  intros Hv. unfold LegacyInput.calculateFromLambert, resolveInput, lambertToWgs84.
  cbn [inputType lambertForm eastingEl northingEl lambertCrsEl toNumber Number.finite].
  destruct (proj4_to_wgs84 c (x, y)) as [wlon wlat]. cbn [fst snd] in *.
  now rewrite Hv.
Qed.

(** A conversion that lands outside the latitude range. *)
Lemma legacy_lambert_unvalidated_witness :
  validateLonLat (Some (fst ((fun (_ : crs) (_ : R * R) => (4, 95)) EPSG31370 (0, 0))))
    (Some (snd ((fun (_ : crs) (_ : R * R) => (4, 95)) EPSG31370 (0, 0))))
  = Some LatitudeRange
  /\ LegacyInput.calculateFromLambert (fun _ _ => (4, 95)) EPSG31370 (Fin 0) (Fin 0)
     = LegacyInput.Requests (Legacy.requests 95 4).
Proof.
  assert (Hv : validateLonLat
                 (Some (fst ((fun (_ : crs) (_ : R * R) => (4, 95)) EPSG31370 (0, 0))))
                 (Some (snd ((fun (_ : crs) (_ : R * R) => (4, 95)) EPSG31370 (0, 0))))
               = Some LatitudeRange).
  { cbn [fst snd validateLonLat].
    destruct (Rlt_dec 95 (-90)); [reflexivity |].
    destruct (Rlt_dec 90 95); [reflexivity | lra]. }
  split; [exact Hv |].
  exact (proj1 (legacy_lambert_unvalidated noGeocoder (fun _ _ => (4, 95)) EPSG31370 0 0
                  (Fin 10) LatitudeRange Hv)).
Defined.

(** ** Zero distance in exact arithmetic *)


